(** * Binance futures CLI: the trading facade and its command-line surface

    A shallow embedding of [app/services/trade_service.py], [app/main.py]
    and [app/services/logger.py].  Coroutines run sequentially here: every
    [await] is a plain call, the event trace records what reached the
    outside world (the exchange client, the logger, the console) and in
    which order. *)

From Stdlib Require Import String Ascii List ZArith.
From Stdlib Require Import DecimalString.
Import ListNotations.
Set Warnings "-register-all".
Open Scope string_scope.
Open Scope list_scope.

(** String concatenation, kept apart from list append. *)
Infix "+++" := String.append (right associativity, at level 60).

(** ** Text *)

(** [str.upper] on ASCII text, which is what trading symbols and sides are:
    the letters a..z move to A..Z, every other character stays.  Strings
    here are byte strings; on text with characters outside ASCII Python's
    [str.upper] does more (it can even change the length), so what is stated
    of the characters sent is stated of ASCII text, see [ascii_text]. *)
Definition upper_ascii (c : ascii) : ascii :=
  let n := nat_of_ascii c in
  if andb (Nat.leb 97 n) (Nat.leb n 122) then ascii_of_nat (n - 32) else c.

Fixpoint upper (s : string) : string :=
  match s with
  | EmptyString => EmptyString
  | String c s' => String (upper_ascii c) (upper s')
  end.

(** A lower-case ASCII letter. *)
Definition is_lower (c : ascii) : bool :=
  let n := nat_of_ascii c in andb (Nat.leb 97 n) (Nat.leb n 122).

(** Text made of ASCII characters only. *)
Fixpoint ascii_text (s : string) : bool :=
  match s with
  | EmptyString => true
  | String c s' => andb (Nat.ltb (nat_of_ascii c) 128) (ascii_text s')
  end.

(** [x] is [s] written in upper case: the two have the same length, a
    lower-case letter of [s] stands in [x] as the letter 32 code points
    below it, and any other character stands as it is. *)
Fixpoint upper_cased (s x : string) : Prop :=
  match s, x with
  | EmptyString, EmptyString => True
  | String c s', String d x' =>
      (if is_lower c then nat_of_ascii d + 32 = nat_of_ascii c else d = c)
      /\ upper_cased s' x'
  | _, _ => False
  end.

(** Whether the text has an opening square bracket, the character that
    starts a console markup tag. *)
Fixpoint has_bracket (s : string) : bool :=
  match s with
  | EmptyString => false
  | String c s' => orb (Ascii.eqb c "[") (has_bracket s')
  end.

(** The newline that the source writes as a backslash escape. *)
Definition nl : string := String (ascii_of_nat 10) EmptyString.

(** Truth value of a string: empty is false. *)
Definition str_truthy (s : string) : bool :=
  match s with EmptyString => false | _ => true end.

Fixpoint join (sep : string) (l : list string) : string :=
  match l with
  | [] => ""
  | [x] => x
  | x :: l' => x +++ sep +++ join sep l'
  end.

Definition str_of_Z (z : Z) : string := NilZero.string_of_int (Z.to_int z).

(** ** Floating-point numbers

    The source only converts, compares with zero and formats floats; these
    builtins are taken as an interface.  [float_of_str] is [float(s)] on a
    string ([None] when Python raises ValueError), [float_of_Z] is [float(n)]
    on an int that [float_fits], that is, which lies in the range of a
    double (Python raises OverflowError on the others), [float_repr] is
    [str(x)], [fmt_2f] is the format spec [.2f] and [fmt_comma_2f] the
    format spec [,.2f]. *)
Class PyFloat (F : Type) := {
  float_of_str : string -> option F;
  float_of_Z : Z -> F;
  float_fits : Z -> bool;
  float_is_zero : F -> bool;
  float_ge_zero : F -> bool;
  float_repr : F -> string;
  fmt_2f : F -> string;
  fmt_comma_2f : F -> string;
  float_zero_is_zero : float_is_zero (float_of_Z 0) = true;
  float_fits_zero : float_fits 0 = true
}.

(** ** Python values

    What the exchange client hands back (parsed JSON) and what the facade
    passes as keyword arguments.  A dict is an association list looked up
    from the front. *)
Inductive PyVal (F : Type) : Type :=
| VNone
| VBool (b : bool)
| VInt (z : Z)
| VFloat (x : F)
| VStr (s : string)
| VList (l : list (PyVal F))
| VDict (d : list (string * PyVal F)).

Arguments VNone {F}.
Arguments VBool {F} b.
Arguments VInt {F} z.
Arguments VFloat {F} x.
Arguments VStr {F} s.
Arguments VList {F} l.
Arguments VDict {F} d.

(** Instances of Python's [Exception]: what [except Exception] catches.
    [RemoteError cls msg] is an exception of class [cls] coming out of the
    exchange client, [msg] being its [str()]; [NotRenderableError] and
    [MarkupError] are the console library's.  What is raised outside
    [Exception] is a [signal], below. *)
Inductive exn : Type :=
| ValueError (msg : string)
| TypeError (msg : string)
| KeyError (key : string)
| AttributeError (msg : string)
| OverflowError (msg : string)
| NotRenderableError (msg : string)
| MarkupError (msg : string)
| RemoteError (cls : string) (msg : string).

(** An exception that is an instance of [BaseException] but not of
    [Exception], such as [asyncio.CancelledError] or [KeyboardInterrupt]:
    [except Exception] lets it pass. *)
Record signal : Type := mkSignal {
  signal_class : string;
  signal_message : string
}.

(** [str(e)], as an f-string prints it.  A KeyError prints the repr of its
    key. *)
Definition str_exn (e : exn) : string :=
  match e with
  | ValueError m => m
  | TypeError m => m
  | KeyError k => "'" +++ k +++ "'"
  | AttributeError m => m
  | OverflowError m => m
  | NotRenderableError m => m
  | MarkupError m => m
  | RemoteError _ m => m
  end.

(** How a call ends: it returns, it raises an instance of [Exception], or
    a [signal] goes through it. *)
Inductive Result (A : Type) : Type :=
| Ok (a : A)
| Raise (e : exn)
| Abort (b : signal).

Arguments Ok {A} a.
Arguments Raise {A} e.
Arguments Abort {A} b.

Definition is_ok {A} (r : Result A) : bool :=
  match r with Ok _ => true | _ => false end.

Fixpoint assoc {A} (k : string) (d : list (string * A)) : option A :=
  match d with
  | [] => None
  | (k', v) :: d' => if String.eqb k k' then Some v else assoc k d'
  end.

Section Values.
Context {F : Type} {PF : PyFloat F}.

Definition type_name (v : PyVal F) : string :=
  match v with
  | VNone => "NoneType"
  | VBool _ => "bool"
  | VInt _ => "int"
  | VFloat _ => "float"
  | VStr _ => "str"
  | VList _ => "list"
  | VDict _ => "dict"
  end.

(** [repr(v)]; string contents are printed between single quotes as they
    are. *)
Fixpoint py_repr (v : PyVal F) : string :=
  match v with
  | VNone => "None"
  | VBool true => "True"
  | VBool false => "False"
  | VInt z => str_of_Z z
  | VFloat x => float_repr x
  | VStr s => "'" +++ s +++ "'"
  | VList l => "[" +++ join ", " (map py_repr l) +++ "]"
  | VDict d =>
      "{" +++ join ", " (map (fun kv => "'" +++ fst kv +++ "': " +++ py_repr (snd kv)) d) +++ "}"
  end.

(** [str(v)], also what an f-string field prints. *)
Definition py_str (v : PyVal F) : string :=
  match v with
  | VStr s => s
  | _ => py_repr v
  end.

(** [bool(v)], as [if v] and [not v] test it. *)
Definition truthy (v : PyVal F) : bool :=
  match v with
  | VNone => false
  | VBool b => b
  | VInt z => negb (Z.eqb z 0)
  | VFloat x => negb (float_is_zero x)
  | VStr s => str_truthy s
  | VList l => match l with [] => false | _ => true end
  | VDict d => match d with [] => false | _ => true end
  end.

(** [v[key]] with a string key. *)
Definition subscript (v : PyVal F) (key : string) : Result (PyVal F) :=
  match v with
  | VDict d =>
      match assoc key d with
      | Some x => Ok x
      | None => Raise (KeyError key)
      end
  | VList _ => Raise (TypeError "list indices must be integers or slices, not str")
  | VStr _ => Raise (TypeError "string indices must be integers, not 'str'")
  | _ => Raise (TypeError ("'" +++ type_name v +++ "' object is not subscriptable"))
  end.

(** [v.get(key, default)]. *)
Definition py_get (v : PyVal F) (key : string) (default : PyVal F)
  : Result (PyVal F) :=
  match v with
  | VDict d =>
      match assoc key d with
      | Some x => Ok x
      | None => Ok default
      end
  | _ => Raise (AttributeError ("'" +++ type_name v +++ "' object has no attribute 'get'"))
  end.

(** [float(v)]. *)
Definition py_float (v : PyVal F) : Result F :=
  match v with
  | VFloat x => Ok x
  | VInt z =>
      if float_fits z then Ok (float_of_Z z)
      else Raise (OverflowError "int too large to convert to float")
  | VBool b => Ok (float_of_Z (if b then 1 else 0))
  | VStr s =>
      match float_of_str s with
      | Some x => Ok x
      | None => Raise (ValueError ("could not convert string to float: '" +++ s +++ "'"))
      end
  | _ =>
      Raise (TypeError ("float() argument must be a string or a real number, not '"
                        +++ type_name v +++ "'"))
  end.

(** [len(v)]. *)
Definition py_len (v : PyVal F) : Result Z :=
  match v with
  | VList l => Ok (Z.of_nat (List.length l))
  | VDict d => Ok (Z.of_nat (List.length d))
  | VStr s => Ok (Z.of_nat (String.length s))
  | _ => Raise (TypeError ("object of type '" +++ type_name v +++ "' has no len()"))
  end.

(** The items a [for] loop or a comprehension draws from [v]. *)
Definition py_iter (v : PyVal F) : Result (list (PyVal F)) :=
  match v with
  | VList l => Ok l
  | VDict d => Ok (map (fun kv => VStr (fst kv)) d)
  | VStr s => Ok (map (fun c => VStr (String c EmptyString)) (list_ascii_of_string s))
  | _ => Raise (TypeError ("'" +++ type_name v +++ "' object is not iterable"))
  end.

End Values.

(** ** The outside world *)

(** Constants of the exchange client library ([binance.enums]). *)
Definition SIDE_BUY : string := "BUY".
Definition SIDE_SELL : string := "SELL".
Definition FUTURE_ORDER_TYPE_MARKET : string := "MARKET".
Definition ORDER_TYPE_LIMIT : string := "LIMIT".
Definition ORDER_TYPE_STOP_LOSS_LIMIT : string := "STOP_LOSS_LIMIT".
Definition TIME_IN_FORCE_GTC : string := "GTC".

(** A connection handle, as [AsyncClient.create] returns one. *)
Definition Client : Type := nat.

(** One call on the exchange client: the method's name and its keyword
    arguments in the order the source writes them. *)
Record Request (F : Type) : Type := mkRequest {
  method : string;
  kwargs : list (string * PyVal F)
}.

Arguments mkRequest {F} method kwargs.
Arguments method {F} r.
Arguments kwargs {F} r.

(** The named severities of the logging library. *)
Inductive Level : Type :=
| TRACE | DEBUG | INFO | SUCCESS | WARNING | ERROR | CRITICAL.

(** The logger the facade is given.  [extra] holds the keys bound with
    [bind]; the trade sink of [setup_logger] keeps the records whose extra
    has the key "trade". *)
Record Logger : Type := mkLogger { extra : list string }.

Definition bind_extra (key : string) (l : Logger) : Logger :=
  {| extra := key :: extra l |}.

(** Everything observable, in the order it happens.  [EvPrint] and
    [EvTable] are what the console was handed and rendered. *)
Inductive Event (F : Type) : Type :=
| EvCreate (key secret : string) (testnet_kw : option bool)
| EvConnected (c : Client)
| EvClose (c : Client)
| EvCall (c : Client) (r : Request F)
| EvLog (lvl : Level) (bound : list string) (msg : string)
| EvPrint (text : string)
| EvTable (title : string) (columns : list string) (rows : list (list string)).

Arguments EvCreate {F} key secret testnet_kw.
Arguments EvConnected {F} c.
Arguments EvClose {F} c.
Arguments EvCall {F} c r.
Arguments EvLog {F} lvl bound msg.
Arguments EvPrint {F} text.
Arguments EvTable {F} title columns rows.

(** The exchange client library, seen from the facade: whether
    [AsyncClient.create] connects, and how each call ends given the calls
    made before it: with an answer, with an exception, or with a signal such
    as the cancellation of the awaiting asyncio task.  [close_connection]
    releases the handle and returns. *)
Record Exchange (F : Type) : Type := mkExchange {
  create : string -> string -> option bool -> Result Client;
  respond : list (Request F) -> Client -> Request F -> Result (PyVal F)
}.

Arguments mkExchange {F} create respond.
Arguments create {F} e _ _ _.
Arguments respond {F} e _ _ _.

(** [app.core.config.settings]: the three values that the defaults of the
    facade's constructor read, taken as a parameter. *)
Record Settings : Type := mkSettings {
  TESTNET : bool;
  API_KEY : string;
  SECRET_KEY : string
}.

(** ** The trading facade: class [TradeService] *)

Record TradeService : Type := mkTradeService {
  logger : Logger;
  testnet : bool;
  api_key : string;
  secret_key : string;
  client : option Client
}.

Definition set_client (c : option Client) (t : TradeService) : TradeService :=
  {| logger := logger t; testnet := testnet t; api_key := api_key t;
     secret_key := secret_key t; client := c |}.

(** [TradeService.__init__].  An argument the caller leaves out is [None]
    here; [logger] has no default, so Python refuses a call without it. *)
Definition TradeService_init (settings : Settings)
    (logger : option Logger) (testnet : option bool)
    (api_key secret_key : option string) : Result TradeService :=
  match logger with
  | None =>
      Raise (TypeError
        "TradeService.__init__() missing 1 required positional argument: 'logger'")
  | Some lg =>
      Ok {| logger := lg;
            testnet := match testnet with Some b => b | None => TESTNET settings end;
            api_key := match api_key with Some k => k | None => API_KEY settings end;
            secret_key :=
              match secret_key with Some k => k | None => SECRET_KEY settings end;
            client := None |}
  end.

(** Trace observations. *)
Definition requests_of {F} (evs : list (Event F)) : list (Request F) :=
  flat_map (fun ev => match ev with EvCall _ r => [r] | _ => [] end) evs.

Definition error_logs {F} (evs : list (Event F)) : list string :=
  flat_map (fun ev => match ev with EvLog ERROR _ m => [m] | _ => [] end) evs.

Definition connects {F} (evs : list (Event F)) : list Client :=
  flat_map (fun ev => match ev with EvConnected c => [c] | _ => [] end) evs.

Definition closes {F} (evs : list (Event F)) : list Client :=
  flat_map (fun ev => match ev with EvClose c => [c] | _ => [] end) evs.

Definition printed {F} (evs : list (Event F)) : list string :=
  flat_map (fun ev => match ev with EvPrint t => [t] | _ => [] end) evs.

Definition tables {F} (evs : list (Event F)) : list (list (list string)) :=
  flat_map (fun ev => match ev with EvTable _ _ rows => [rows] | _ => [] end) evs.

(** The facade object together with the trace so far. *)
Record Sys (F : Type) : Type := mkSys {
  self : TradeService;
  events : list (Event F)
}.

Arguments mkSys {F} self events.
Arguments self {F} s.
Arguments events {F} s.

(** Computations that read and update the facade, extend the trace and may
    raise; what was done before a raise or a signal stays done. *)
Definition M (F A : Type) : Type := Sys F -> Result A * Sys F.

Definition ret {F A} (a : A) : M F A := fun s => (Ok a, s).

Definition raise {F A} (e : exn) : M F A := fun s => (Raise e, s).

Definition bind {F A B} (m : M F A) (k : A -> M F B) : M F B :=
  fun s =>
    match m s with
    | (Ok a, s') => k a s'
    | (Raise e, s') => (Raise e, s')
    | (Abort b, s') => (Abort b, s')
    end.

(** [try: m  except Exception as e: h e].  A signal is no [Exception]
    and passes the handler by. *)
Definition try_except {F A} (m : M F A) (h : exn -> M F A) : M F A :=
  fun s =>
    match m s with
    | (Ok a, s') => (Ok a, s')
    | (Raise e, s') => h e s'
    | (Abort b, s') => (Abort b, s')
    end.

Definition lift {F A} (r : Result A) : M F A := fun s => (r, s).

Definition emit {F} (ev : Event F) : M F unit :=
  fun s => (Ok tt, {| self := self s; events := events s ++ [ev] |}).

Definition get_self {F} : M F TradeService := fun s => (Ok (self s), s).

Definition put_self {F} (t : TradeService) : M F unit :=
  fun s => (Ok tt, {| self := t; events := events s |}).

(** [if c: m], nothing otherwise. *)
Definition when {F} (c : bool) (m : M F unit) : M F unit :=
  if c then m else ret tt.

Declare Scope py_scope.
Delimit Scope py_scope with py.
Notation "x <- m ;; k" := (bind m (fun x => k))
  (at level 61, m at next level, right associativity) : py_scope.
Notation "m ;; k" := (bind m (fun _ => k))
  (at level 61, right associativity) : py_scope.
Open Scope py_scope.

Section Facade.
Context {F : Type} {PF : PyFloat F}.
Variable ex : Exchange F.

(** [self.logger.<level>(msg)]. *)
Definition log (lvl : Level) (msg : string) : M F unit :=
  t <- get_self ;; emit (EvLog lvl (extra (logger t)) msg).

(** [self.logger.bind(trade=True).info(msg)]. *)
Definition log_trade (msg : string) : M F unit :=
  t <- get_self ;; emit (EvLog INFO (extra (bind_extra "trade" (logger t))) msg).

(** [await AsyncClient.create(key, secret, ...)]. *)
Definition client_create (key secret : string) (testnet_kw : option bool)
  : M F Client :=
  emit (EvCreate key secret testnet_kw) ;;
  c <- lift (create ex key secret testnet_kw) ;;
  emit (EvConnected c) ;;
  ret c.

(** [await self.client.m(...)] with keyword arguments [kw].  With no
    handle yet, the attribute lookup on [None] fails and nothing is sent. *)
Definition client_call (m : string) (kw : list (string * PyVal F))
  : M F (PyVal F) :=
  fun s =>
    match client (self s) with
    | None =>
        (Raise (AttributeError
                  ("'NoneType' object has no attribute '" +++ m +++ "'")), s)
    | Some c =>
        let r := mkRequest m kw in
        (respond ex (requests_of (events s)) c r,
         {| self := self s; events := events s ++ [EvCall c r] |})
    end.

(** [TradeService.__aenter__]. *)
Definition aenter : M F unit :=
  t <- get_self ;;
  if testnet t then
    c <- client_create (api_key t) (secret_key t) (Some true) ;;
    put_self (set_client (Some c) t) ;;
    log INFO "Connected to Binance Futures TESTNET"
  else
    c <- client_create (api_key t) (secret_key t) None ;;
    put_self (set_client (Some c) t) ;;
    log WARNING "Connected to REAL Binance Futures - USE WITH CAUTION".

(** [TradeService.__aexit__]; it returns [None], so an exception of the
    block is not swallowed. *)
Definition aexit : M F unit :=
  t <- get_self ;;
  match client t with
  | None =>
      raise (AttributeError
               "'NoneType' object has no attribute 'close_connection'")
  | Some c => emit (EvClose c)
  end ;;
  log INFO "Connection Closed".

(** [side not in [SIDE_BUY, SIDE_SELL]]. *)
Definition side_invalid (side : string) : bool :=
  negb (existsb (String.eqb side) [SIDE_BUY; SIDE_SELL]).

Definition invalid_side_error (side : string) : exn :=
  ValueError ("Invalid SIDE: " +++ side +++ ". Must be 'BUY' or 'SELL'").

Definition place_futures_market_order (symbol side : string) (quantity : F)
  : M F (PyVal F) :=
  try_except
    (when (side_invalid side) (raise (invalid_side_error side)) ;;
     log INFO ("Placing MARKET " +++ side +++ " order: "
               +++ float_repr quantity +++ " " +++ symbol) ;;
     order <- client_call "futures_create_order"
                [("symbol", VStr symbol);
                 ("side", VStr side);
                 ("type", VStr FUTURE_ORDER_TYPE_MARKET);
                 ("quantity", VFloat quantity)] ;;
     order_id <- lift (subscript order "orderId") ;;
     status <- lift (subscript order "status") ;;
     log_trade ("MARKET " +++ side +++ " | " +++ symbol +++ " | Qty: "
                +++ float_repr quantity +++ " | " +++ "Order ID: "
                +++ py_str order_id +++ " | Status: " +++ py_str status) ;;
     ret order)
    (fun e => log ERROR ("Market order failed: " +++ str_exn e) ;; raise e).

Definition place_futures_limit_order (symbol side : string) (quantity price : F)
  : M F (PyVal F) :=
  try_except
    (when (side_invalid side) (raise (invalid_side_error side)) ;;
     log INFO ("Placing LIMIT " +++ side +++ " order: " +++ float_repr quantity
               +++ " " +++ symbol +++ " at " +++ float_repr price) ;;
     order <- client_call "futures_create_order"
                [("symbol", VStr symbol);
                 ("side", VStr side);
                 ("type", VStr ORDER_TYPE_LIMIT);
                 ("timeInForce", VStr TIME_IN_FORCE_GTC);
                 ("quantity", VFloat quantity);
                 ("price", VFloat price)] ;;
     order_id <- lift (subscript order "orderId") ;;
     status <- lift (subscript order "status") ;;
     log_trade ("LIMIT " +++ side +++ " | " +++ symbol +++ " | Qty: "
                +++ float_repr quantity +++ " | Price: $" +++ float_repr price
                +++ " | " +++ "Order ID: " +++ py_str order_id
                +++ " | Status: " +++ py_str status) ;;
     ret order)
    (fun e => log ERROR ("Limit order failed: " +++ str_exn e) ;; raise e).

Definition place_stop_limit_order (symbol side : string)
    (quantity price stop_price : F) : M F (PyVal F) :=
  try_except
    (when (side_invalid side) (raise (invalid_side_error side)) ;;
     log INFO ("Placing STOP_LIMIT " +++ side +++ " order: "
               +++ float_repr quantity +++ " " +++ symbol +++ " at "
               +++ float_repr price +++ " and stop price at "
               +++ float_repr stop_price) ;;
     order <- client_call "create_order"
                [("symbol", VStr symbol);
                 ("side", VStr side);
                 ("type", VStr ORDER_TYPE_STOP_LOSS_LIMIT);
                 ("quantity", VFloat quantity);
                 ("price", VFloat price);
                 ("stopPrice", VFloat stop_price)] ;;
     order_id <- lift (subscript order "orderId") ;;
     status <- lift (subscript order "status") ;;
     log_trade ("STOP_LIMIT " +++ side +++ " | " +++ symbol +++ " | Qty: "
                +++ float_repr quantity +++ " | " +++ "Price: "
                +++ float_repr price +++ " | Stop Price : "
                +++ float_repr stop_price +++ "Order ID: " +++ py_str order_id
                +++ " | Status: " +++ py_str status) ;;
     ret order)
    (fun e => log ERROR ("Market order failed: " +++ str_exn e) ;; raise e).

Definition get_current_price (symbol : string) : M F F :=
  try_except
    (ticker <- client_call "futures_symbol_ticker" [("symbol", VStr symbol)] ;;
     raw <- lift (subscript ticker "price") ;;
     price <- lift (py_float raw) ;;
     log INFO ("Current price for " +++ symbol +++ ": $" +++ float_repr price) ;;
     ret price)
    (fun e => log ERROR ("Failed to get price: " +++ str_exn e) ;; raise e).

Definition get_account_balance : M F F :=
  try_except
    (account <- client_call "futures_account" [] ;;
     raw <- lift (subscript account "totalWalletBalance") ;;
     balance <- lift (py_float raw) ;;
     log INFO ("Account balance: $" +++ fmt_2f balance +++ " USDT") ;;
     ret balance)
    (fun e => log ERROR ("Failed to get balance: " +++ str_exn e) ;; raise e).

Definition cancel_order (symbol : string) (order_id : Z) : M F (PyVal F) :=
  try_except
    (result <- client_call "futures_cancel_order"
                 [("symbol", VStr symbol); ("orderId", VInt order_id)] ;;
     log INFO ("Order " +++ str_of_Z order_id +++ " canceled successfully") ;;
     ret result)
    (fun e => log ERROR ("Failed to cancel order: " +++ str_exn e) ;; raise e).

(** An optional symbol as the keyword argument's value. *)
Definition opt_symbol (symbol : option string) : PyVal F :=
  match symbol with Some s => VStr s | None => VNone end.

Definition get_open_orders (symbol : option string) : M F (PyVal F) :=
  try_except
    (orders <- client_call "futures_get_open_orders"
                 [("symbol", opt_symbol symbol)] ;;
     n <- lift (py_len orders) ;;
     log INFO ("Found " +++ str_of_Z n +++ " open orders") ;;
     ret orders)
    (fun e => log ERROR ("Failed to get open orders: " +++ str_exn e) ;; raise e).

Definition get_position_info (symbol : option string) : M F (PyVal F) :=
  try_except
    (positions <- client_call "futures_position_information"
                    [("symbol", opt_symbol symbol)] ;;
     log INFO ("Position info retrieved for "
               +++ (if truthy (opt_symbol symbol) then py_str (opt_symbol symbol)
                    else "all symbols")) ;;
     ret positions)
    (fun e => log ERROR ("Failed to get position info: " +++ str_exn e) ;; raise e).

(** The eight operations of the facade with their arguments, and the text
    each one puts in front of a failure in the error log. *)
Inductive Op : Type :=
| OpMarket (symbol side : string) (quantity : F)
| OpLimit (symbol side : string) (quantity price : F)
| OpStopLimit (symbol side : string) (quantity price stop_price : F)
| OpPrice (symbol : string)
| OpBalance
| OpCancel (symbol : string) (order_id : Z)
| OpOpenOrders (symbol : option string)
| OpPositions (symbol : option string).

Definition run_op (op : Op) : M F (PyVal F) :=
  match op with
  | OpMarket sy sd q => place_futures_market_order sy sd q
  | OpLimit sy sd q p => place_futures_limit_order sy sd q p
  | OpStopLimit sy sd q p sp => place_stop_limit_order sy sd q p sp
  | OpPrice sy => x <- get_current_price sy ;; ret (VFloat x)
  | OpBalance => x <- get_account_balance ;; ret (VFloat x)
  | OpCancel sy oid => cancel_order sy oid
  | OpOpenOrders sy => get_open_orders sy
  | OpPositions sy => get_position_info sy
  end.

(** The request an operation hands to the exchange client. *)
Definition op_request (op : Op) : Request F :=
  match op with
  | OpMarket sy sd q =>
      mkRequest "futures_create_order"
        [("symbol", VStr sy); ("side", VStr sd);
         ("type", VStr FUTURE_ORDER_TYPE_MARKET); ("quantity", VFloat q)]
  | OpLimit sy sd q p =>
      mkRequest "futures_create_order"
        [("symbol", VStr sy); ("side", VStr sd);
         ("type", VStr ORDER_TYPE_LIMIT);
         ("timeInForce", VStr TIME_IN_FORCE_GTC);
         ("quantity", VFloat q); ("price", VFloat p)]
  | OpStopLimit sy sd q p sp =>
      mkRequest "create_order"
        [("symbol", VStr sy); ("side", VStr sd);
         ("type", VStr ORDER_TYPE_STOP_LOSS_LIMIT); ("quantity", VFloat q);
         ("price", VFloat p); ("stopPrice", VFloat sp)]
  | OpPrice sy => mkRequest "futures_symbol_ticker" [("symbol", VStr sy)]
  | OpBalance => mkRequest "futures_account" []
  | OpCancel sy oid =>
      mkRequest "futures_cancel_order"
        [("symbol", VStr sy); ("orderId", VInt oid)]
  | OpOpenOrders sy =>
      mkRequest "futures_get_open_orders" [("symbol", opt_symbol sy)]
  | OpPositions sy =>
      mkRequest "futures_position_information" [("symbol", opt_symbol sy)]
  end.

Definition op_error_prefix (op : Op) : string :=
  match op with
  | OpMarket _ _ _ => "Market order failed: "
  | OpLimit _ _ _ _ => "Limit order failed: "
  | OpStopLimit _ _ _ _ _ => "Market order failed: "
  | OpPrice _ => "Failed to get price: "
  | OpBalance => "Failed to get balance: "
  | OpCancel _ _ => "Failed to cancel order: "
  | OpOpenOrders _ => "Failed to get open orders: "
  | OpPositions _ => "Failed to get position info: "
  end.

(** The side an operation validates, if it takes one. *)
Definition op_side (op : Op) : option string :=
  match op with
  | OpMarket _ sd _ | OpLimit _ sd _ _ | OpStopLimit _ sd _ _ _ => Some sd
  | _ => None
  end.

(** [async with ctor as service: body], from a trace [evs]: the facade is
    constructed, entered, the block runs, and the facade is exited whether
    the block returned, raised or was interrupted by a signal.  A failure of
    the constructor or of [__aenter__] leaves before the block and before
    [__aexit__]. *)
Definition async_with {A} (ctor : Result TradeService) (body : M F A)
    (evs : list (Event F)) : Result A * list (Event F) :=
  match ctor with
  | Raise e => (Raise e, evs)
  | Abort b => (Abort b, evs)
  | Ok t =>
      match aenter (mkSys t evs) with
      | (Raise e, s1) => (Raise e, events s1)
      | (Abort b, s1) => (Abort b, events s1)
      | (Ok _, s1) =>
          let '(r, s2) := body s1 in
          match aexit s2 with
          | (Raise e, s3) => (Raise e, events s3)
          | (Abort b, s3) => (Abort b, events s3)
          | (Ok _, s3) => (r, events s3)
          end
      end
  end.

End Facade.

(** ** The command-line surface: [app/main.py] *)

(** The global [state] object that [main_callback] fills in. *)
Record State : Type := mkState {
  state_testnet : bool;
  state_api_key : string;
  state_secret_key : string
}.

Definition rbind {A B} (r : Result A) (k : A -> Result B) : Result B :=
  match r with
  | Ok a => k a
  | Raise e => Raise e
  | Abort b => Abort b
  end.

Fixpoint filterR {A} (f : A -> Result bool) (l : list A) : Result (list A) :=
  match l with
  | [] => Ok []
  | x :: l' =>
      rbind (f x) (fun keep =>
      rbind (filterR f l') (fun rest =>
      Ok (if keep then x :: rest else rest)))
  end.

Fixpoint mapR {A B} (f : A -> Result B) (l : list A) : Result (list B) :=
  match l with
  | [] => Ok []
  | x :: l' =>
      rbind (f x) (fun y => rbind (mapR f l') (fun ys => Ok (y :: ys)))
  end.

(** ** The console library

    The lines of [main.py] that are written out in full, without any
    interpolated value. *)
Definition fixed_lines : list string :=
  [nl +++ "[green]✓ Market Order Placed Successfully[/green]";
   nl +++ "[green]✓ Limit Order Placed Successfully[/green]";
   nl +++ "[green]✓ Stop-Limit Order Placed Successfully[/green]";
   nl +++ "[yellow]No open orders found[/yellow]";
   nl +++ "[yellow]No active positions[/yellow]"].

(** The console renders the text it is handed as markup and raises
    MarkupError on a text whose tags do not match, such as a closing tag
    that closes nothing; [markup_error t] is the message of that error, if
    rendering [t] raises one.  The markup parser is the library's and is
    taken as an interface: a text without an opening square bracket is
    rendered as it is, and the fixed lines of [main.py], whose tags are
    matched, are rendered.  The console is taken to be wide enough for the
    frame of a table, and its stream to take what is written to it. *)
Class RichConsole : Type := {
  markup_error : string -> option string;
  plain_text_renders : forall t, has_bracket t = false -> markup_error t = None;
  fixed_lines_render : forall t, In t fixed_lines -> markup_error t = None
}.

(** The first text of a list that the console refuses. *)
Fixpoint first_markup_error `{RichConsole} (texts : list string) : option string :=
  match texts with
  | [] => None
  | t :: texts' =>
      match markup_error t with
      | Some msg => Some msg
      | None => first_markup_error texts'
      end
  end.

(** The texts of a table in the order the console renders them: column by
    column, the header and then the cells of the column, to measure the
    widths, and then the title. *)
Definition table_texts (title : string) (columns : list string)
    (rows : list (list string)) : list string :=
  concat (map (fun j => nth j columns "" :: map (fun row => nth j row "") rows)
              (seq 0 (List.length columns)))
  ++ [title].

Section Cli.
Context {F : Type} {PF : PyFloat F} {RC : RichConsole}.
Variable ex : Exchange F.
Variable settings : Settings.

(** [TradeService(testnet=state.testnet, api_key=state.api_key,
    secret_key=state.secret_key)], the constructor call every command
    makes: no logger is passed. *)
Definition new_service (st : State) : Result TradeService :=
  TradeService_init settings None (Some (state_testnet st))
    (Some (state_api_key st)) (Some (state_secret_key st)).

(** [console.print(text)]: nothing is written when rendering raises. *)
Definition console_print (text : string) : M F unit :=
  match markup_error text with
  | Some msg => raise (MarkupError msg)
  | None => emit (EvPrint text)
  end.

(** A cell as [Table.add_row] takes it: a string as it is, [None] as the
    empty string, and nothing else. *)
Definition cell (v : PyVal F) : Result string :=
  match v with
  | VStr s => Ok s
  | VNone => Ok ""
  | _ =>
      Raise (NotRenderableError
               ("unable to render " +++ type_name v
                +++ "; a string or other renderable object is required"))
  end.

(** [table.add_row(...)] on cells already evaluated. *)
Definition add_row (cells : list (PyVal F)) : Result (list string) :=
  mapR cell cells.

(** [console.print(table)]. *)
Definition print_table (title : string) (columns : list string)
    (rows : list (list string)) : M F unit :=
  match first_markup_error (table_texts title columns rows) with
  | Some msg => raise (MarkupError msg)
  | None => emit (EvTable title columns rows)
  end.

Definition key_fields : list (string * string) :=
  [("Order ID", "orderId"); ("Symbol", "symbol"); ("Side", "side");
   ("Type", "type"); ("Quantity", "origQty"); ("Price", "price");
   ("Stop Price", "stopPrice"); ("Status", "status")].

(** [value != "N/A"]. *)
Definition not_na (v : PyVal F) : bool :=
  match v with
  | VStr s => negb (String.eqb s "N/A")
  | _ => true
  end.

(** The rows [_display_order] adds, one per key field the order has; both
    cells of a row are strings. *)
Fixpoint order_rows (order : PyVal F) (fields : list (string * string))
  : Result (list (list string)) :=
  match fields with
  | [] => Ok []
  | (label, key) :: fields' =>
      rbind (py_get order key (VStr "N/A")) (fun value =>
      rbind (order_rows order fields') (fun rest =>
      Ok (if not_na value
          then [label; py_str value] :: rest
          else rest)))
  end.

Definition _display_order (order : PyVal F) : M F unit :=
  rows <- lift (order_rows order key_fields) ;;
  print_table "Order Details" ["Field"; "Value"] rows.

(** The block of [market_order.execute] under [async with]. *)
Definition market_order_block (symbol side : string) (quantity : F) : M F unit :=
  order <- place_futures_market_order ex (upper symbol) (upper side) quantity ;;
  console_print (nl +++ "[green]✓ Market Order Placed Successfully[/green]") ;;
  _display_order order.

Definition limit_order_block (symbol side : string) (quantity price : F)
  : M F unit :=
  order <- place_futures_limit_order ex (upper symbol) (upper side) quantity price ;;
  console_print (nl +++ "[green]✓ Limit Order Placed Successfully[/green]") ;;
  _display_order order.

Definition stop_limit_order_block (symbol side : string)
    (quantity price stop_price : F) : M F unit :=
  order <- place_stop_limit_order ex (upper symbol) (upper side)
             quantity price stop_price ;;
  console_print (nl +++ "[green]✓ Stop-Limit Order Placed Successfully[/green]") ;;
  _display_order order.

Definition get_price_block (symbol : string) : M F unit :=
  price <- get_current_price ex (upper symbol) ;;
  console_print (nl +++ "[cyan]" +++ upper symbol +++ ":[/cyan] [green]$"
                 +++ fmt_comma_2f price +++ "[/green]").

Definition get_balance_block : M F unit :=
  balance <- get_account_balance ex ;;
  console_print (nl +++ "[cyan]Account Balance:[/cyan] [green]$"
                 +++ fmt_comma_2f balance +++ " USDT[/green]").

(** [symbol.upper() if symbol else None]. *)
Definition symbol_filter (symbol : option string) : option string :=
  match symbol with
  | Some s => if str_truthy s then Some (upper s) else None
  | None => None
  end.

(** One pass of the loop over the orders: the six arguments are
    evaluated, then [add_row] takes them. *)
Definition open_order_row (order : PyVal F) : Result (list string) :=
  rbind (subscript order "orderId") (fun oid =>
  rbind (subscript order "symbol") (fun sy =>
  rbind (subscript order "side") (fun sd =>
  rbind (subscript order "type") (fun ty =>
  rbind (subscript order "origQty") (fun qty =>
  rbind (py_get order "price" (VStr "N/A")) (fun pr =>
  add_row [VStr (py_str oid); sy; sd; ty; VStr (py_str qty);
           VStr (py_str pr)])))))).

Definition list_orders_block (symbol : option string) : M F unit :=
  orders <- get_open_orders ex (symbol_filter symbol) ;;
  if negb (truthy orders) then
    console_print (nl +++ "[yellow]No open orders found[/yellow]")
  else
    n <- lift (py_len orders) ;;
    items <- lift (py_iter orders) ;;
    rows <- lift (mapR open_order_row items) ;;
    print_table ("Open Orders (" +++ str_of_Z n +++ ")")
      ["Order ID"; "Symbol"; "Side"; "Type"; "Quantity"; "Price"] rows.

(** [float(p.get("positionAmt", 0)) != 0]. *)
Definition is_active (p : PyVal F) : Result bool :=
  rbind (py_get p "positionAmt" (VInt 0)) (fun amt =>
  rbind (py_float amt) (fun x =>
  Ok (negb (float_is_zero x)))).

(** The comprehension that keeps the non-zero positions. *)
Definition active_positions (positions : PyVal F) : Result (list (PyVal F)) :=
  rbind (py_iter positions) (filterR is_active).

(** One pass of the loop over the active positions. *)
Definition position_row (pos : PyVal F) : Result (list string) :=
  rbind (py_get pos "unRealizedProfit" (VInt 0)) (fun raw =>
  rbind (py_float raw) (fun pnl =>
  let pnl_color := if float_ge_zero pnl then "green" else "red" in
  rbind (subscript pos "symbol") (fun sy =>
  rbind (subscript pos "positionAmt") (fun amt =>
  rbind (subscript pos "entryPrice") (fun entry =>
  rbind (subscript pos "markPrice") (fun mark =>
  add_row [sy; amt; entry; mark;
           VStr ("[" +++ pnl_color +++ "]$" +++ fmt_comma_2f pnl
                 +++ "[/" +++ pnl_color +++ "]")])))))).

Definition get_position_block (symbol : option string) : M F unit :=
  positions <- get_position_info ex (symbol_filter symbol) ;;
  active <- lift (active_positions positions) ;;
  match active with
  | [] => console_print (nl +++ "[yellow]No active positions[/yellow]")
  | _ =>
      rows <- lift (mapR position_row active) ;;
      print_table "Active Positions"
        ["Symbol"; "Amount"; "Entry Price"; "Mark Price"; "PnL"] rows
  end.

Definition cancel_order_block (symbol : string) (order_id : Z) : M F unit :=
  _ <- cancel_order ex (upper symbol) order_id ;;
  console_print (nl +++ "[green]✓ Order " +++ str_of_Z order_id
                 +++ " canceled successfully[/green]").

(** The commands as Typer dispatches them, from the trace [evs]. *)
Definition market_order (st : State) (symbol side : string) (quantity : F)
    (evs : list (Event F)) : Result unit * list (Event F) :=
  async_with ex (new_service st) (market_order_block symbol side quantity) evs.

Definition limit_order (st : State) (symbol side : string) (quantity price : F)
    (evs : list (Event F)) : Result unit * list (Event F) :=
  async_with ex (new_service st)
    (limit_order_block symbol side quantity price) evs.

Definition stop_limit_order (st : State) (symbol side : string)
    (quantity price stop_price : F) (evs : list (Event F))
  : Result unit * list (Event F) :=
  async_with ex (new_service st)
    (stop_limit_order_block symbol side quantity price stop_price) evs.

Definition get_price (st : State) (symbol : string) (evs : list (Event F))
  : Result unit * list (Event F) :=
  async_with ex (new_service st) (get_price_block symbol) evs.

Definition get_balance (st : State) (evs : list (Event F))
  : Result unit * list (Event F) :=
  async_with ex (new_service st) get_balance_block evs.

Definition list_orders (st : State) (symbol : option string)
    (evs : list (Event F)) : Result unit * list (Event F) :=
  async_with ex (new_service st) (list_orders_block symbol) evs.

Definition get_position (st : State) (symbol : option string)
    (evs : list (Event F)) : Result unit * list (Event F) :=
  async_with ex (new_service st) (get_position_block symbol) evs.

(** The command [cancel_order] of [main.py]; the facade's method has the
    plain name here. *)
Definition cancel_order_cmd (st : State) (symbol : string) (order_id : Z)
    (evs : list (Event F)) : Result unit * list (Event F) :=
  async_with ex (new_service st) (cancel_order_block symbol order_id) evs.

(** A command line: the subcommand and its arguments. *)
Inductive Command : Type :=
| CmdMarket (symbol side : string) (quantity : F)
| CmdLimit (symbol side : string) (quantity price : F)
| CmdStopLimit (symbol side : string) (quantity price stop_price : F)
| CmdPrice (symbol : string)
| CmdBalance
| CmdOrders (symbol : option string)
| CmdPosition (symbol : option string)
| CmdCancel (symbol : string) (order_id : Z).

Definition command_block (cmd : Command) : M F unit :=
  match cmd with
  | CmdMarket sy sd q => market_order_block sy sd q
  | CmdLimit sy sd q p => limit_order_block sy sd q p
  | CmdStopLimit sy sd q p sp => stop_limit_order_block sy sd q p sp
  | CmdPrice sy => get_price_block sy
  | CmdBalance => get_balance_block
  | CmdOrders sy => list_orders_block sy
  | CmdPosition sy => get_position_block sy
  | CmdCancel sy oid => cancel_order_block sy oid
  end.

Definition run_command (st : State) (cmd : Command) (evs : list (Event F))
  : Result unit * list (Event F) :=
  match cmd with
  | CmdMarket sy sd q => market_order st sy sd q evs
  | CmdLimit sy sd q p => limit_order st sy sd q p evs
  | CmdStopLimit sy sd q p sp => stop_limit_order st sy sd q p sp evs
  | CmdPrice sy => get_price st sy evs
  | CmdBalance => get_balance st evs
  | CmdOrders sy => list_orders st sy evs
  | CmdPosition sy => get_position st sy evs
  | CmdCancel sy oid => cancel_order_cmd st sy oid evs
  end.

(** The symbol argument of a command line, when it has one. *)
Definition command_symbol (cmd : Command) : option string :=
  match cmd with
  | CmdMarket sy _ _ | CmdLimit sy _ _ _ | CmdStopLimit sy _ _ _ _
  | CmdPrice sy | CmdCancel sy _ => Some sy
  | CmdOrders sy | CmdPosition sy => sy
  | CmdBalance => None
  end.

Definition command_side (cmd : Command) : option string :=
  match cmd with
  | CmdMarket _ sd _ | CmdLimit _ sd _ _ | CmdStopLimit _ sd _ _ _ => Some sd
  | _ => None
  end.

End Cli.

(** The symbol a request carries to the exchange, if any. *)
Definition request_symbol {F} (r : Request F) : option string :=
  match assoc "symbol" (kwargs r) with
  | Some (VStr s) => Some s
  | _ => None
  end.

(** ** A concrete world for the examples *)

Module Demo.

(** *** Floats

    Python's float is the IEEE 754 double; the examples compute with it
    exactly. *)

(** Binary64 numbers: [Fin neg m e] is [m * 2^e], negated when [neg], with
    [0 <= m < 2^53]; [m] has 53 bits unless [e = -1074], and zero is
    [Fin neg 0 0]. *)
Inductive Dec : Type :=
| Fin (neg : bool) (m : Z) (e : Z)
| Inf (neg : bool)
| NaN.

Open Scope Z_scope.

(** The integer nearest to [p / q], ties to even ([0 <= p], [0 < q]). *)
Definition round_half_even (p q : Z) : Z :=
  let n := p / q in
  match Z.compare (2 * (p mod q)) q with
  | Lt => n
  | Gt => n + 1
  | Eq => if Z.even n then n else n + 1
  end.

(** [p / (q * 2^ex)] to the nearest integer. *)
Definition scaled (p q ex : Z) : Z :=
  if 0 <=? ex then round_half_even p (q * 2 ^ ex)
  else round_half_even (p * 2 ^ (- ex)) q.

(** The double nearest to [p / q] ([0 < p], [0 < q]), ties to even. *)
Definition nearest (neg : bool) (p q : Z) : Dec :=
  let ex1 := Z.max (Z.log2 p - Z.log2 q - 53) (-1074) in
  let n1 := scaled p q ex1 in
  let ex2 := if 2 ^ 53 <=? n1 then ex1 + 1 else ex1 in
  let n2 := if 2 ^ 53 <=? n1 then scaled p q ex2 else n1 in
  let ex := if n2 =? 2 ^ 53 then ex2 + 1 else ex2 in
  let n := if n2 =? 2 ^ 53 then 2 ^ 52 else n2 in
  if n =? 0 then Fin neg 0 0
  else if 971 <? ex then Inf neg
  else Fin neg n ex.

Definition dec_eqb (x y : Dec) : bool :=
  match x, y with
  | Fin a m e, Fin b n f => andb (Bool.eqb a b) (andb (m =? n) (e =? f))
  | Inf a, Inf b => Bool.eqb a b
  | _, _ => false
  end.

(** [float(n)] on an int, and whether it is in range. *)
Definition dec_of_Z (z : Z) : Dec :=
  if z =? 0 then Fin false 0 0 else nearest (z <? 0) (Z.abs z) 1.

Definition dec_fits (z : Z) : bool :=
  match dec_of_Z z with Inf _ => false | _ => true end.

(** The exact value [n / 10^k] of a finite double's magnitude. *)
Definition exact_decimal (m e : Z) : Z * Z :=
  if 0 <=? e then (m * 2 ^ e, 0) else (m * 5 ^ (- e), - e).

Close Scope Z_scope.

Fixpoint zeros (n : nat) : string :=
  match n with
  | O => ""
  | S n' => "0" +++ zeros n'
  end.

Fixpoint rev_string (s acc : string) : string :=
  match s with
  | EmptyString => acc
  | String c s' => rev_string s' (String c acc)
  end.

Fixpoint drop_zeros (s : string) : string :=
  match s with
  | String "0" s' => drop_zeros s'
  | _ => s
  end.

(** Without its trailing zeros. *)
Definition strip_zeros (s : string) : string :=
  rev_string (drop_zeros (rev_string s "")) "".

Definition zlen (s : string) : Z := Z.of_nat (String.length s).

(** The shortest digits that read back as the double [m * 2^e], and the
    position of the decimal point: the value is [0.digits * 10^point]. *)
Fixpoint shortest (count : nat) (n : Z) (m e : Z) : string * Z :=
  let '(big, k) := exact_decimal m e in
  let all := str_of_Z big in
  let len := zlen all in
  match count with
  | O => (strip_zeros all, (len - k)%Z)
  | S count' =>
      if (len <=? n)%Z then (strip_zeros all, (len - k)%Z)
      else
        let p := (10 ^ (len - n))%Z in
        let lo := (big / p)%Z in
        let r := (big mod p)%Z in
        let back c := dec_eqb (nearest false (c * p) (10 ^ k)) (Fin false m e) in
        let take c := (strip_zeros (str_of_Z c),
                       (zlen (str_of_Z c) + (len - n) - k)%Z) in
        if (r =? 0)%Z then take lo
        else
          match back lo, back (lo + 1)%Z with
          | true, true =>
              match Z.compare (2 * r) p with
              | Lt => take lo
              | Gt => take (lo + 1)%Z
              | Eq => if Z.even lo then take lo else take (lo + 1)%Z
              end
          | true, false => take lo
          | false, true => take (lo + 1)%Z
          | false, false => shortest count' (n + 1) m e
          end
  end.

Definition sign_text (neg : bool) : string := if neg then "-" else "".

(** [repr(x)], which is also [str(x)]. *)
Definition dec_repr (x : Dec) : string :=
  match x with
  | NaN => "nan"
  | Inf neg => sign_text neg +++ "inf"
  | Fin neg m e =>
      if (m =? 0)%Z then sign_text neg +++ "0.0"
      else
        let '(digits, point) := shortest 17 1 m e in
        let len := zlen digits in
        sign_text neg +++
        if orb (point <=? -4)%Z (16 <? point)%Z then
          let ex := (point - 1)%Z in
          let tail := substring 1 (String.length digits - 1) digits in
          substring 0 1 digits
          +++ (if (len =? 1)%Z then "" else "." +++ tail)
          +++ "e" +++ (if (ex <? 0)%Z then "-" else "+")
          +++ (if (Z.abs ex <? 10)%Z then "0" else "") +++ str_of_Z (Z.abs ex)
        else if (point <=? 0)%Z then
          "0." +++ zeros (Z.to_nat (- point)) +++ digits
        else if (len <=? point)%Z then
          digits +++ zeros (Z.to_nat (point - len)) +++ ".0"
        else
          substring 0 (Z.to_nat point) digits +++ "."
          +++ substring (Z.to_nat point) (Z.to_nat (len - point)) digits
  end.

(** A run of digits with a comma before every group of three from the
    right. *)
Fixpoint group3 (digits : list ascii) (n : nat) : string :=
  match digits with
  | [] => ""
  | c :: rest =>
      String c (if andb (Nat.eqb (n mod 3) 1) (negb (Nat.eqb n 1))
                then "," +++ group3 rest (n - 1)
                else group3 rest (n - 1))
  end.

Definition with_commas (s : string) : string :=
  group3 (list_ascii_of_string s) (String.length s).

(** The format specs [.2f] and [,.2f]. *)
Definition dec_fixed2 (commas : bool) (x : Dec) : string :=
  match x with
  | NaN => "nan"
  | Inf neg => sign_text neg +++ "inf"
  | Fin neg m e =>
      let '(big, k) := exact_decimal m e in
      let t := round_half_even (big * 100) (10 ^ k) in
      let whole := str_of_Z (t / 100) in
      let cents := str_of_Z (t mod 100) in
      sign_text neg +++ (if commas then with_commas whole else whole)
      +++ "." +++ zeros (2 - String.length cents) +++ cents
  end.

(** Reading a float from text, as [float(s)] does. *)
Definition is_space (c : ascii) : bool :=
  let n := nat_of_ascii c in
  orb (andb (Nat.leb 9 n) (Nat.leb n 13))
      (orb (andb (Nat.leb 28 n) (Nat.leb n 31)) (Nat.eqb n 32)).

Fixpoint lstrip (s : string) : string :=
  match s with
  | String c s' => if is_space c then lstrip s' else s
  | EmptyString => s
  end.

Definition strip (s : string) : string :=
  rev_string (lstrip (rev_string (lstrip s) "")) "".

Definition digit_of (c : ascii) : option Z :=
  let n := nat_of_ascii c in
  if andb (Nat.leb 48 n) (Nat.leb n 57) then Some (Z.of_nat (n - 48)) else None.

(** A digit part: digits with single underscores between them.  Returns
    the number read so far, how many digits it has, and the text left;
    [after_digit] tells whether an underscore may come next. *)
Fixpoint digit_part (s : string) (acc : Z) (count : nat) (after_digit : bool)
  : Z * nat * string :=
  match s with
  | String c s' =>
      match digit_of c with
      | Some d => digit_part s' (10 * acc + d) (S count) true
      | None =>
          if andb (Ascii.eqb c "_") after_digit then
            match s' with
            | String c' _ =>
                match digit_of c' with
                | Some _ => digit_part s' acc count false
                | None => (acc, count, s)
                end
            | EmptyString => (acc, count, s)
            end
          else (acc, count, s)
      end
  | EmptyString => (acc, count, s)
  end.

Definition lower_ascii (c : ascii) : ascii :=
  let n := nat_of_ascii c in
  if andb (Nat.leb 65 n) (Nat.leb n 90) then ascii_of_nat (n + 32) else c.

Fixpoint lower (s : string) : string :=
  match s with
  | EmptyString => EmptyString
  | String c s' => String (lower_ascii c) (lower s')
  end.

Definition split_sign (s : string) : bool * string :=
  match s with
  | String "-" s' => (true, s')
  | String "+" s' => (false, s')
  | _ => (false, s)
  end.

(** The exponent part, if there is one: [None] when it is malformed. *)
Definition exponent_part (s : string) : option Z :=
  match s with
  | EmptyString => Some 0%Z
  | String c s' =>
      if orb (Ascii.eqb c "e") (Ascii.eqb c "E") then
        let '(neg, digits) := split_sign s' in
        match digit_part digits 0 0 false with
        | (v, S _, EmptyString) => Some (if neg then (- v)%Z else v)
        | _ => None
        end
      else None
  end.

Definition dec_of_str (s : string) : option Dec :=
  let '(neg, body) := split_sign (strip s) in
  let word := lower body in
  if orb (String.eqb word "inf") (String.eqb word "infinity") then Some (Inf neg)
  else if String.eqb word "nan" then Some NaN
  else
    let '(whole, nw, rest) := digit_part body 0 0 false in
    let '(both, nf, rest') :=
      match rest with
      | String "." after => digit_part after whole 0 false
      | _ => (whole, O, rest)
      end in
    if Nat.eqb (nw + nf) 0 then None
    else
      match exponent_part rest' with
      | None => None
      | Some ex =>
          let e10 := (ex - Z.of_nat nf)%Z in
          if (both =? 0)%Z then Some (Fin neg 0 0)
          else if (400 <? e10)%Z then Some (Inf neg)
          else if (e10 + zlen (str_of_Z both) <? -400)%Z then Some (Fin neg 0 0)
          else if (0 <=? e10)%Z then Some (nearest neg (both * 10 ^ e10) 1)
          else Some (nearest neg both (10 ^ (- e10)))
      end.

Definition dec_is_zero (x : Dec) : bool :=
  match x with
  | Fin _ m _ => (m =? 0)%Z
  | _ => false
  end.

(** [x >= 0]: false on NaN, true on both zeros. *)
Definition dec_ge_zero (x : Dec) : bool :=
  match x with
  | Fin neg m _ => orb (negb neg) (m =? 0)%Z
  | Inf neg => negb neg
  | NaN => false
  end.

#[global] Instance Dec_PyFloat : PyFloat Dec := {|
  float_of_str := dec_of_str;
  float_of_Z := dec_of_Z;
  float_fits := dec_fits;
  float_is_zero := dec_is_zero;
  float_ge_zero := dec_ge_zero;
  float_repr := dec_repr;
  fmt_2f := dec_fixed2 false;
  fmt_comma_2f := dec_fixed2 true;
  float_zero_is_zero := eq_refl;
  float_fits_zero := eq_refl
|}.

(** *** Console markup

    The tags of a text are found as the console library's pattern finds
    them: an opening square bracket, a first character among a..z, #, /
    and @, then everything up to the next closing bracket, provided no
    opening bracket comes first; an odd number of backslashes in front
    escapes the tag.  A closing tag must close a tag that is open; tags
    left open are accepted.  Style names are compared stripped and in
    lower case, and positions count characters of ASCII text. *)

Definition backslash : ascii := ascii_of_nat 92.

Definition tag_start (c : ascii) : bool :=
  orb (is_lower c)
      (orb (Ascii.eqb c "#") (orb (Ascii.eqb c "/") (Ascii.eqb c "@"))).

(** The run of backslashes a text starts with, and what follows. *)
Fixpoint backslashes (s : string) : nat * string :=
  match s with
  | String c s' =>
      if Ascii.eqb c backslash
      then let '(n, r) := backslashes s' in (S n, r)
      else (O, s)
  | EmptyString => (O, s)
  end.

(** The text up to the first closing bracket, when no opening bracket
    comes before it, and the text after that bracket. *)
Fixpoint until_close (s : string) : option (string * string) :=
  match s with
  | EmptyString => None
  | String c s' =>
      if Ascii.eqb c "]" then Some ("", s')
      else if Ascii.eqb c "[" then None
      else
        match until_close s' with
        | Some (t, r) => Some (String c t, r)
        | None => None
        end
  end.

(** The tag a text starts with: the number of backslashes in front of it,
    the tag's text and the text after the tag. *)
Definition tag_at (s : string) : option (nat * string * string) :=
  let '(n, r) := backslashes s in
  match r with
  | String b (String c r') =>
      if andb (Ascii.eqb b "[") (tag_start c) then
        match until_close r' with
        | Some (t, rest) => Some (n, String c t, rest)
        | None => None
        end
      else None
  | _ => None
  end.

(** [tag.partition("=")]: the name and the parameters, if any. *)
Fixpoint partition_eq (s : string) : string * option string :=
  match s with
  | EmptyString => ("", None)
  | String c s' =>
      if Ascii.eqb c "=" then ("", Some s')
      else let '(a, b) := partition_eq s' in (String c a, b)
  end.

Definition normalize (style : string) : string := lower (strip style).

(** Removes the innermost open tag of that name. *)
Fixpoint pop_style (name : string) (stack : list string) : option (list string) :=
  match stack with
  | [] => None
  | t :: stack' =>
      if String.eqb t name then Some stack'
      else option_map (cons t) (pop_style name stack')
  end.

Definition str_of_nat (n : nat) : string := str_of_Z (Z.of_nat n).

Definition tag_markup (name : string) (params : option string) : string :=
  match params with
  | None => "[" +++ name +++ "]"
  | Some p => "[" +++ name +++ "=" +++ p +++ "]"
  end.

(** Goes through the text [s], which starts at position [pos], with the
    tags [stack] open; [fuel] bounds the number of steps, one character
    at least being passed at each. *)
Fixpoint scan (fuel : nat) (s : string) (pos : nat) (stack : list string)
  : option string :=
  match fuel with
  | O => None
  | S fuel' =>
      match s with
      | EmptyString => None
      | String _ s' =>
          match tag_at s with
          | None => scan fuel' s' (S pos) stack
          | Some (n, tag, rest) =>
              let next := pos + n + 2 + String.length tag in
              if Nat.odd n then scan fuel' rest next stack
              else
                let '(name, params) := partition_eq tag in
                match name with
                | String "/" closing =>
                    if str_truthy (strip closing) then
                      match pop_style (normalize closing) stack with
                      | Some stack' => scan fuel' rest next stack'
                      | None =>
                          Some ("closing tag '" +++ tag_markup name params
                                +++ "' at position " +++ str_of_nat (pos + n)
                                +++ " doesn't match any open tag")
                      end
                    else
                      match stack with
                      | _ :: stack' => scan fuel' rest next stack'
                      | [] =>
                          Some ("closing tag '[/]' at position "
                                +++ str_of_nat (pos + n)
                                +++ " has nothing to close")
                      end
                | _ => scan fuel' rest next (normalize name :: stack)
                end
          end
      end
  end.

Definition check_markup (t : string) : option string :=
  scan (S (String.length t)) t 0 [].

(** *** Values and exchanges *)

(** 0.001 *)
Definition qty : Dec := Eval vm_compute in
  match dec_of_str "0.001" with Some x => x | None => NaN end.

Definition settings : Settings :=
  {| TESTNET := true; API_KEY := "env-key"; SECRET_KEY := "env-secret" |}.

Definition state : State :=
  {| state_testnet := true; state_api_key := "key"; state_secret_key := "secret" |}.

Definition the_logger : Logger := {| extra := [] |}.

(** A facade as [TradeService(logger, True, "key", "secret")] builds it. *)
Definition fresh : TradeService :=
  {| logger := the_logger; testnet := true; api_key := "key";
     secret_key := "secret"; client := None |}.

(** The same facade once entered, holding handle 7. *)
Definition opened : TradeService := set_client (Some 7%nat) fresh.

(** The entered facade with nothing on the trace yet. *)
Definition start : Sys Dec := mkSys opened [].

Definition flat : PyVal Dec :=
  VDict [("symbol", VStr "ETHUSDT"); ("positionAmt", VStr "0.000");
         ("entryPrice", VStr "0.0"); ("markPrice", VStr "0.0");
         ("unRealizedProfit", VStr "0.0")].

Definition long : PyVal Dec :=
  VDict [("symbol", VStr "BTCUSDT"); ("positionAmt", VStr "0.5");
         ("entryPrice", VStr "50000"); ("markPrice", VStr "51000");
         ("unRealizedProfit", VStr "500")].

Definition bare : PyVal Dec :=
  VDict [("symbol", VStr "XRPUSDT")].

Definition answer (r : Request Dec) : PyVal Dec :=
  if String.eqb (method r) "futures_position_information"
  then VList [flat; long; bare]
  else if String.eqb (method r) "futures_get_open_orders" then VList []
  else VDict [("orderId", VInt 42); ("status", VStr "NEW");
              ("price", VStr "50000"); ("totalWalletBalance", VStr "100")].

(** An exchange that connects and answers every call. *)
Definition accepting : Exchange Dec :=
  {| create := fun _ _ _ => Ok 7%nat;
     respond := fun _ _ r => Ok (answer r) |}.

Definition rejection : exn :=
  RemoteError "BinanceAPIException" "APIError(code=-2011): Unknown order sent.".

(** An exchange that connects and rejects every call. *)
Definition rejecting : Exchange Dec :=
  {| create := fun _ _ _ => Ok 7%nat;
     respond := fun _ _ _ => Raise rejection |}.

(** An exchange that rejects the cancellation of an order and answers
    every other call. *)
Definition rejecting_cancel : Exchange Dec :=
  {| create := fun _ _ _ => Ok 7%nat;
     respond := fun _ _ r =>
       if String.eqb (method r) "futures_cancel_order" then Raise rejection
       else Ok (answer r) |}.

(** The awaiting asyncio task is cancelled while a call is under way:
    [asyncio.CancelledError], which is no instance of [Exception]. *)
Definition cancelled : signal := mkSignal "CancelledError" "".

Definition interrupted : Exchange Dec :=
  {| create := fun _ _ _ => Ok 7%nat;
     respond := fun _ _ _ => Abort cancelled |}.

(** An exchange that answers every call with three positions, one of them
    open. *)
Definition mixed : Exchange Dec :=
  {| create := fun _ _ _ => Ok 7%nat;
     respond := fun _ _ _ => Ok (VList [flat; long; bare]) |}.

(** An exchange whose positions are all flat. *)
Definition all_flat : Exchange Dec :=
  {| create := fun _ _ _ => Ok 7%nat;
     respond := fun _ _ _ => Ok (VList [flat; bare; flat]) |}.

End Demo.
(** ** Reading a run *)

(** [body], run from [s], leaves the facade object as it was and adds the
    events [new] to the trace. *)
Definition adds {F A} (body : M F A) (s : Sys F) (r : Result A)
    (new : list (Event F)) : Prop :=
  body s = (r, {| self := self s; events := events s ++ new |}).

(** A block that leaves the facade object as it was and neither opens nor
    closes connections on its own. *)
Definition keeps_connection {F A} (body : M F A) : Prop :=
  forall s, exists r new,
    adds body s r new /\ connects new = [] /\ closes new = [].

(** The amount the position display reads from an entry: the field
    "positionAmt", or 0 when the entry has none, as a float. *)
Definition position_amount {F} `{PyFloat F} (p : PyVal F) : Result F :=
  rbind (py_get p "positionAmt" (VInt 0)) py_float.

Definition has_amount {F} `{PyFloat F} (p : PyVal F) : Prop :=
  exists x, position_amount p = Ok x.

Definition nonzero_amount {F} `{PyFloat F} (p : PyVal F) : Prop :=
  exists x, position_amount p = Ok x /\ float_is_zero x = false.

Definition zero_amount {F} `{PyFloat F} (p : PyVal F) : Prop :=
  exists x, position_amount p = Ok x /\ float_is_zero x = true.

(** ** The start-up callback of [app/main.py] *)

(** How [main_callback] ends: it returns, or raises [typer.Exit]. *)
Inductive Startup : Type :=
| Proceed
| Exit (code : Z).

(** [x or default], for an option value that may be absent or empty. *)
Definition or_else (x : option string) (default : string) : string :=
  match x with
  | Some s => if str_truthy s then s else default
  | None => default
  end.

(** [main_callback]: the three fields of the global [state] are assigned
    first, then the credentials are checked.  The result is how the callback
    ends, the state it leaves and the lines it prints; these lines are
    written out in the source, with matched tags. *)
Definition main_callback (settings : Settings) (testnet : bool)
    (api_key secret_key : option string) : Startup * State * list string :=
  let st := {| state_testnet := testnet;
               state_api_key := or_else api_key (API_KEY settings);
               state_secret_key := or_else secret_key (SECRET_KEY settings) |} in
  if orb (negb (str_truthy (state_api_key st)))
         (negb (str_truthy (state_secret_key st)))
  then (Exit 1, st,
        ["[red]Error: API credentials not configured[/red]";
         "Set BINANCE_API_KEY and BINANCE_SECRET_KEY env vars"])
  else (Proceed, st,
        ["[yellow]Mode: " +++ (if state_testnet st then "TESTNET" else "LIVE")
         +++ "[/yellow]"]).

(** ** Logging setup: [app/services/logger.py] *)

Inductive Target : Type :=
| Stdout
| LogFile (path : string).

Definition Target_eqb (a b : Target) : bool :=
  match a, b with
  | Stdout, Stdout => true
  | LogFile p, LogFile q => String.eqb p q
  | _, _ => false
  end.

(** One handler as [logger.add] registers it.  [needs_extra] is the key
    that the handler's filter looks for in the record's extra, when it has a
    filter. *)
Record Sink : Type := mkSink {
  target : Target;
  format : string;
  threshold : Level;
  needs_extra : option string;
  rotation : option string;
  retention : option string;
  compression : option string;
  colorize : bool
}.

(** The severity numbers of the logging library. *)
Definition level_no (l : Level) : nat :=
  match l with
  | TRACE => 5
  | DEBUG => 10
  | INFO => 20
  | SUCCESS => 25
  | WARNING => 30
  | ERROR => 40
  | CRITICAL => 50
  end.

Definition bot_file : Target := LogFile "logs/bot_{time:YYYY-MM-DD}.log".
Definition errors_file : Target := LogFile "logs/errors_{time:YYYY-MM-DD}.log".
Definition trades_file : Target := LogFile "logs/trades_{time:YYYY-MM-DD}.log".

Definition stdout_sink : Sink :=
  {| target := Stdout;
     format := "<green>{time:YYYY-MM-DD HH:mm:ss}</green> | <level>{level: <8}</level> | <cyan>{name}</cyan>:<cyan>{function}</cyan>:<cyan>{line}</cyan> - <level>{message}</level>";
     threshold := INFO;
     needs_extra := None;
     rotation := None;
     retention := None;
     compression := None;
     colorize := true |}.

Definition bot_sink : Sink :=
  {| target := bot_file;
     format := "{time:YYYY-MM-DD HH:mm:ss} | {level: <8} | {name}:{function}:{line} - {message}";
     threshold := DEBUG;
     needs_extra := None;
     rotation := Some "00:00";
     retention := Some "30 days";
     compression := Some "zip";
     colorize := false |}.

Definition errors_sink : Sink :=
  {| target := errors_file;
     format := "{time:YYYY-MM-DD HH:mm:ss} | {level: <8} | {name}:{function}:{line} - {message}"
               +++ nl +++ "{exception}";
     threshold := ERROR;
     needs_extra := None;
     rotation := Some "00:00";
     retention := Some "90 days";
     compression := Some "zip";
     colorize := false |}.

(** No level is given for this handler, so the library's default, DEBUG,
    applies. *)
Definition trades_sink : Sink :=
  {| target := trades_file;
     format := "{time:YYYY-MM-DD HH:mm:ss} | {message}";
     threshold := DEBUG;
     needs_extra := Some "trade";
     rotation := Some "00:00";
     retention := Some "365 days";
     compression := Some "zip";
     colorize := false |}.

(** What [setup_logger] leaves behind: the handlers in the order they were
    added (the default handler was removed first), the record it logs at the
    end, and the logger it returns. *)
Record LoggerSetup : Type := mkLoggerSetup {
  sinks : list Sink;
  announcement : Level * string;
  configured : Logger
}.

Definition setup_logger (verbose : bool) : LoggerSetup :=
  {| sinks := (if verbose then [stdout_sink] else [])
              ++ [bot_sink; errors_sink; trades_sink];
     announcement := (INFO, "Logger initialized successfully");
     configured := {| extra := [] |} |}.

(** A handler takes a record when the record is at least as severe as the
    handler's level and passes its filter. *)
Definition delivers (k : Sink) (lvl : Level) (bound : list string) : bool :=
  andb (Nat.leb (level_no (threshold k)) (level_no lvl))
       match needs_extra k with
       | Some key => existsb (String.eqb key) bound
       | None => true
       end.

Definition destinations (ks : list Sink) (lvl : Level) (bound : list string)
  : list Target :=
  map target (filter (fun k => delivers k lvl bound) ks).

(** The messages of a trace that the handlers [ks] write to [t]. *)
Definition file_lines {F} (ks : list Sink) (t : Target) (evs : list (Event F))
  : list string :=
  flat_map (fun ev =>
              match ev with
              | EvLog lvl bound msg =>
                  if existsb (Target_eqb t) (destinations ks lvl bound)
                  then [msg] else []
              | _ => []
              end) evs.

(** The handles on which a trace's requests were made. *)
Definition call_handles {F} (evs : list (Event F)) : list Client :=
  flat_map (fun ev => match ev with EvCall c _ => [c] | _ => [] end) evs.

(** The three order placements among the operations. *)
Definition is_placement {F} (op : @Op F) : bool :=
  match op with
  | OpMarket _ _ _ | OpLimit _ _ _ _ | OpStopLimit _ _ _ _ _ => true
  | _ => false
  end.

(** The row [_display_order] adds for one key field of a dict, if any:
    the label and [str] of the value. *)
Definition field_row {F} `{PyFloat F} (d : list (string * PyVal F))
    (field : string * string) : list (list string) :=
  match assoc (snd field) d with
  | Some v => if not_na v then [[fst field; py_str v]] else []
  | None => []
  end.

(** The texts in the value column of the table [_display_order] builds
    of a dict. *)
Definition shown_values {F} `{PyFloat F} (d : list (string * PyVal F))
  : list string :=
  map (fun row => nth 1 row "") (flat_map (field_row d) key_fields).

(** A command line with its symbol and side written in upper case. *)
Definition upper_command {F} (cmd : @Command F) : @Command F :=
  match cmd with
  | CmdMarket sy sd q => CmdMarket (upper sy) (upper sd) q
  | CmdLimit sy sd q p => CmdLimit (upper sy) (upper sd) q p
  | CmdStopLimit sy sd q p sp => CmdStopLimit (upper sy) (upper sd) q p sp
  | CmdPrice sy => CmdPrice (upper sy)
  | CmdBalance => CmdBalance
  | CmdOrders sy => CmdOrders (option_map upper sy)
  | CmdPosition sy => CmdPosition (option_map upper sy)
  | CmdCancel sy oid => CmdCancel (upper sy) oid
  end.

Module Cases.
Import Demo.

(** An exchange whose answers carry a status but no order id. *)
Definition no_order_id : Exchange Dec :=
  {| create := fun _ _ _ => Ok 7%nat;
     respond := fun _ _ _ => Ok (VDict [("status", VStr "NEW")]) |}.

(** An exchange that answers every call with [None]. *)
Definition silent : Exchange Dec :=
  {| create := fun _ _ _ => Ok 7%nat;
     respond := fun _ _ _ => Ok VNone |}.

Definition orders : list (PyVal Dec) :=
  [VDict [("orderId", VInt 1); ("symbol", VStr "BTCUSDT");
          ("side", VStr "BUY"); ("type", VStr "LIMIT");
          ("origQty", VStr "0.001"); ("price", VStr "50000")];
   VDict [("orderId", VInt 2); ("symbol", VStr "BTCUSDT");
          ("side", VStr "SELL"); ("type", VStr "MARKET");
          ("origQty", VStr "0.002")]].

(** An exchange that answers the open-orders request with these two
    orders, the second without a price, and any other call with [None]. *)
Definition two_orders : Exchange Dec :=
  {| create := fun _ _ _ => Ok 7%nat;
     respond := fun _ _ r =>
       if String.eqb (method r) "futures_get_open_orders"
       then Ok (VList orders) else Ok VNone |}.

(** An exchange whose ticker and account answers carry a price and a
    wallet balance; it rejects every other call. *)
Definition quoting : Exchange Dec :=
  {| create := fun _ _ _ => Ok 7%nat;
     respond := fun _ _ r =>
       if String.eqb (method r) "futures_symbol_ticker"
       then Ok (VDict [("price", VStr "50000.5")])
       else if String.eqb (method r) "futures_account"
       then Ok (VDict [("totalWalletBalance", VStr "1234567.891")])
       else Raise rejection |}.

(** A ticker answer whose price is an int beyond the range of a double. *)
Definition huge : Exchange Dec :=
  {| create := fun _ _ _ => Ok 7%nat;
     respond := fun _ _ _ => Ok (VDict [("price", VInt (10 ^ 400))]) |}.

(** An open position of which the exchange tells only symbol and amount. *)
Definition partial : PyVal Dec :=
  VDict [("symbol", VStr "BTCUSDT"); ("positionAmt", VStr "0.5")].

Definition half_told : Exchange Dec :=
  {| create := fun _ _ _ => Ok 7%nat;
     respond := fun _ _ _ => Ok (VList [partial]) |}.

(** An open position whose amount is a number and not a string. *)
Definition numeric : PyVal Dec :=
  VDict [("symbol", VStr "BTCUSDT"); ("positionAmt", VInt 5);
         ("entryPrice", VStr "50000"); ("markPrice", VStr "51000");
         ("unRealizedProfit", VStr "-12.5")].

Definition numbers : Exchange Dec :=
  {| create := fun _ _ _ => Ok 7%nat;
     respond := fun _ _ _ => Ok (VList [numeric]) |}.

(** An order whose symbol closes a tag that was never opened. *)
Definition stray_tag : PyVal Dec :=
  VDict [("orderId", VInt 42); ("symbol", VStr "[/b]"); ("status", VStr "NEW")].

(** A facade holding no handle, with the logger of [setup_logger]. *)
Definition unopened : Sys Dec :=
  mkSys {| logger := configured (setup_logger false); testnet := true;
           api_key := "key"; secret_key := "secret"; client := None |} [].

End Cases.
(** ** The console of the examples

    The markup check of [Demo] has the two properties asked of a console:
    it accepts every text without an opening bracket and the fixed lines of
    [main.py]. *)

Module DemoConsole.
Import Demo.

Lemma backslashes_keep_brackets s :
  has_bracket s = false -> has_bracket (snd (backslashes s)) = false.
Proof.
  induction s as [|c s IH]; [easy|].
  cbn [backslashes has_bracket].
  destruct (Ascii.eqb c backslash) eqn:E.
  - intros H. apply Bool.orb_false_iff in H as [_ H].
    specialize (IH H). destruct (backslashes s). exact IH.
  - cbn [snd has_bracket]. easy.
Qed.

Lemma no_bracket_no_tag s : has_bracket s = false -> tag_at s = None.
Proof.
  intros H. apply backslashes_keep_brackets in H. unfold tag_at.
  destruct (backslashes s) as [n r]. cbn in H.
  destruct r as [|b [|c r']]; try reflexivity.
  cbn in H. destruct (Ascii.eqb b "[") eqn:E; [discriminate|]. reflexivity.
Qed.

Lemma scan_plain fuel : forall s pos stack,
  has_bracket s = false -> scan fuel s pos stack = None.
Proof.
  induction fuel as [|fuel IH]; intros s pos stack H; [reflexivity|].
  destruct s as [|c s]; [reflexivity|].
  cbn [scan]. rewrite (no_bracket_no_tag _ H). apply IH.
  cbn in H. apply Bool.orb_false_iff in H. apply H.
Qed.

Lemma check_fixed_lines t : In t fixed_lines -> check_markup t = None.
Proof.
  intros H. repeat (destruct H as [<- | H]; [vm_compute; reflexivity|]).
  destruct H.
Qed.

#[global] Instance Demo_RichConsole : RichConsole := {|
  markup_error := check_markup;
  plain_text_renders := fun t => scan_plain _ t 0 [];
  fixed_lines_render := check_fixed_lines
|}.

End DemoConsole.

(** ** Trace observers and appended traces *)

Section TraceFacts.
Context {F : Type}.
Implicit Types evs new : list (Event F).

Lemma requests_of_app evs new :
  requests_of (evs ++ new) = requests_of evs ++ requests_of new.
Proof. apply flat_map_app. Qed.

Lemma error_logs_app evs new :
  error_logs (evs ++ new) = error_logs evs ++ error_logs new.
Proof. apply flat_map_app. Qed.

Lemma connects_app evs new :
  connects (evs ++ new) = connects evs ++ connects new.
Proof. apply flat_map_app. Qed.

Lemma closes_app evs new :
  closes (evs ++ new) = closes evs ++ closes new.
Proof. apply flat_map_app. Qed.

Lemma requests_of_log evs lvl bound msg :
  requests_of (evs ++ [EvLog lvl bound msg]) = requests_of evs.
Proof. rewrite requests_of_app. cbn. apply app_nil_r. Qed.

End TraceFacts.

Lemma side_invalid_iff (side : string) :
  side_invalid side = true <-> side <> "BUY" /\ side <> "SELL".
Proof.
  unfold side_invalid, SIDE_BUY, SIDE_SELL. cbn.
  destruct (String.eqb_spec side "BUY"), (String.eqb_spec side "SELL"); cbn;
    intuition congruence.
Qed.

#[local] Arguments String.append : simpl never.
#[local] Arguments requests_of : simpl never.
#[local] Arguments error_logs : simpl never.
#[local] Arguments connects : simpl never.
#[local] Arguments closes : simpl never.
#[local] Arguments printed : simpl never.
#[local] Arguments tables : simpl never.
#[local] Arguments app : simpl never.
#[local] Arguments side_invalid : simpl never.
#[local] Arguments upper : simpl never.
#[local] Arguments first_markup_error : simpl never.
#[local] Arguments table_texts : simpl never.

(** Unfold the monad down to pairs of result and state. *)
Ltac run_monad :=
  unfold adds, print_table, console_print, log, log_trade, client_call,
    try_except, bind, when, lift, raise, ret, emit, get_self, put_self in *;
  cbn.

(** Split on whatever the run still branches on. *)
Ltac split_run :=
  repeat match goal with
         | |- context [match ?x with _ => _ end] =>
             lazymatch x with
             | context [match _ with _ => _ end] => fail
             | _ => destruct x eqn:?; cbn
             end
         end.

(** Close a goal that asks which events were added. *)
Ltac name_added :=
  rewrite <- ?app_assoc;
  repeat eexists; try reflexivity.

Ltac unfold_ops :=
  unfold run_op, place_futures_market_order, place_futures_limit_order,
    place_stop_limit_order, get_current_price, get_account_balance,
    cancel_order, get_open_orders, get_position_info.

Section FacadeFacts.
Context {F : Type} {PF : PyFloat F}.
Variable ex : Exchange F.

Lemma run_op_keeps_connection (op : Op) : keeps_connection (run_op ex op).
Proof.
  intros s. destruct op; unfold_ops; run_monad; split_run; name_added.
Qed.

(** C2: a side other than "BUY" and "SELL" makes each of the three order
    placements raise the ValueError of the side check; the facade is left as
    it was and the one event added is the error log of the handler, so no
    request reaches the exchange client. *)
Theorem invalid_side_rejected_before_remote
    (symbol side : string) (quantity price stop_price : F) (s : Sys F) :
  side <> "BUY" -> side <> "SELL" ->
  let msg := "Invalid SIDE: " +++ side +++ ". Must be 'BUY' or 'SELL'" in
  let entry := fun prefix => EvLog ERROR (extra (logger (self s))) (prefix +++ msg) in
  adds (place_futures_market_order ex symbol side quantity) s
    (Raise (ValueError msg)) [entry "Market order failed: "]
  /\ adds (place_futures_limit_order ex symbol side quantity price) s
       (Raise (ValueError msg)) [entry "Limit order failed: "]
  /\ adds (place_stop_limit_order ex symbol side quantity price stop_price) s
       (Raise (ValueError msg)) [entry "Market order failed: "]
  /\ forall prefix, requests_of [entry prefix] = [].
Proof.
  intros Hb Hs msg entry.
  assert (Hinv : side_invalid side = true) by (apply side_invalid_iff; auto).
  unfold place_futures_market_order, place_futures_limit_order,
    place_stop_limit_order.
  run_monad. rewrite Hinv. cbn.
  repeat split; reflexivity.
Qed.

(** C3, as the code has it: on an entered facade, the side being valid
    where there is one, an operation sends its one request.  When the
    exchange client ends that request with an instance of Exception [e],
    the operation raises that same [e], leaves the facade object as it was
    and logs exactly one error-level entry, its prefix followed by the
    message of [e].  When the request ends with an exception that is no
    instance of Exception, such as the cancellation of the awaiting asyncio
    task, that goes through the operation as it is and nothing is logged at
    error level. *)
Theorem remote_failure_logged_and_reraised
    (op : Op) (s : Sys F) (c : Client) :
  client (self s) = Some c ->
  (forall sd, op_side op = Some sd -> side_invalid sd = false) ->
  (forall e,
     respond ex (requests_of (events s)) c (op_request op) = Raise e ->
     exists new,
       adds (run_op ex op) s (Raise e) new
       /\ error_logs new = [op_error_prefix op +++ str_exn e]
       /\ requests_of new = [op_request op])
  /\ (forall b,
        respond ex (requests_of (events s)) c (op_request op) = Abort b ->
        exists new,
          adds (run_op ex op) s (Abort b) new
          /\ error_logs new = []
          /\ requests_of new = [op_request op]).
Proof.
  intros Hc Hside.
  split; intros e He;
    destruct op; cbn in Hside, He;
    try (specialize (Hside _ eq_refl));
    unfold_ops; run_monad; rewrite ?Hside; cbn; rewrite Hc; cbn;
    rewrite ?requests_of_log, He; cbn; name_added.
Qed.

(** C9: whenever [place_stop_limit_order] raises, for whatever reason, the
    one error-level entry it logs is "Market order failed: " followed by the
    message of the exception. *)
Theorem stop_limit_failure_logged_as_market
    (symbol side : string) (quantity price stop_price : F)
    (s s' : Sys F) (e : exn) :
  place_stop_limit_order ex symbol side quantity price stop_price s
    = (Raise e, s') ->
  exists new,
    s' = mkSys (self s) (events s ++ new)
    /\ error_logs new = ["Market order failed: " +++ str_exn e].
Proof.
  unfold place_stop_limit_order. run_monad. split_run;
    intros H; inversion H; subst; name_added.
Qed.

(** C6: on an entered facade, [place_stop_limit_order] checks the side as
    the market and limit placements do, all three raising the same
    ValueError with nothing sent; with a valid side it sends exactly one
    request, [create_order] with type STOP_LOSS_LIMIT and the given
    quantity, price and stopPrice, while the market and limit placements
    send theirs through [futures_create_order]. *)
Theorem stop_limit_goes_through_create_order
    (symbol side : string) (quantity price stop_price : F)
    (s : Sys F) (c : Client) :
  client (self s) = Some c ->
  (side_invalid side = true ->
   (exists new,
      adds (place_stop_limit_order ex symbol side quantity price stop_price) s
        (Raise (invalid_side_error side)) new
      /\ requests_of new = [])
   /\ fst (place_futures_market_order ex symbol side quantity s)
        = Raise (invalid_side_error side)
   /\ fst (place_futures_limit_order ex symbol side quantity price s)
        = Raise (invalid_side_error side))
  /\ (side_invalid side = false ->
      (exists r new,
         adds (place_stop_limit_order ex symbol side quantity price stop_price)
           s r new
         /\ requests_of new =
              [mkRequest "create_order"
                 [("symbol", VStr symbol); ("side", VStr side);
                  ("type", VStr "STOP_LOSS_LIMIT"); ("quantity", VFloat quantity);
                  ("price", VFloat price); ("stopPrice", VFloat stop_price)]])
      /\ (exists r new q,
         adds (place_futures_market_order ex symbol side quantity) s r new
         /\ requests_of new = [q] /\ method q = "futures_create_order")
      /\ (exists r new q,
         adds (place_futures_limit_order ex symbol side quantity price) s r new
         /\ requests_of new = [q] /\ method q = "futures_create_order")).
Proof.
  intros Hc.
  unfold place_stop_limit_order, place_futures_market_order,
    place_futures_limit_order.
  run_monad. split; intros Hside; rewrite Hside; cbn.
  - repeat split; name_added.
  - rewrite Hc. cbn. repeat split; split_run; name_added.
Qed.

(** C1, as the code has it: the constructor takes the logger together with
    the mode flag and the credentials, keeps all four and starts with no
    handle; entering such a facade, when the exchange accepts the
    credentials, leaves it holding the new handle. *)
Theorem facade_constructed_with_logger
    (settings : Settings) (lg : Logger) (tn : bool) (key secret : string)
    (evs : list (Event F)) (c : Client) :
  create ex key secret (if tn then Some true else None) = Ok c ->
  let t := mkTradeService lg tn key secret None in
  TradeService_init settings (Some lg) (Some tn) (Some key) (Some secret) = Ok t
  /\ exists pre,
       aenter ex (mkSys t evs)
         = (Ok tt, mkSys (set_client (Some c) t) (evs ++ pre))
       /\ connects pre = [c].
Proof.
  intros Hc t. split; [reflexivity|].
  unfold aenter. run_monad. unfold client_create. run_monad.
  destruct tn; cbn; rewrite Hc; cbn; name_added.
Qed.

(** C4: one scoped use of a facade.  If the exchange refuses the
    connection, or the connecting is interrupted, the block never runs and
    nothing was opened.  Otherwise the trace of the whole use is: the
    opening events, which connect handle [c] and send no request; then the
    events of the block, run on the facade holding [c]; then the release of
    [c] and its log line.  The outcome is the block's own, so the release
    also follows a block that raised; the use connects [c] once and closes
    it once. *)
Theorem scoped_use_opens_then_closes
    {A : Type} (t : TradeService) (body : M F A) (evs : list (Event F)) :
  keeps_connection body ->
  let kw := if testnet t then Some true else None in
  match create ex (api_key t) (secret_key t) kw with
  | Raise e =>
      async_with ex (Ok t) body evs
        = (Raise e, evs ++ [EvCreate (api_key t) (secret_key t) kw])
  | Abort b =>
      async_with ex (Ok t) body evs
        = (Abort b, evs ++ [EvCreate (api_key t) (secret_key t) kw])
  | Ok c =>
      exists r pre blk,
        async_with ex (Ok t) body evs
          = (r, evs ++ pre ++ blk
                  ++ [EvClose c; EvLog INFO (extra (logger t)) "Connection Closed"])
        /\ connects pre = [c] /\ closes pre = [] /\ requests_of pre = []
        /\ adds body (mkSys (set_client (Some c) t) (evs ++ pre)) r blk
        /\ connects blk = [] /\ closes blk = []
        /\ connects (pre ++ blk ++ [EvClose c]) = [c]
        /\ closes (pre ++ blk ++ [EvClose c]) = [c]
  end.
Proof.
  intros Hk kw. subst kw.
  unfold async_with, aenter. run_monad. unfold client_create. run_monad.
  destruct (testnet t) eqn:Htn; cbn;
    (destruct (create ex (api_key t) (secret_key t) _) as [c|e|b] eqn:Hcr; cbn;
     [| reflexivity | reflexivity]).
  all: rewrite <- !app_assoc.
  all: match goal with
       | |- context [let '(_, _) := ?b ?s1 in _] =>
           destruct (Hk s1) as (r & blk & Hadds & Hco & Hcl)
       end.
  all: unfold adds in Hadds; cbn in Hadds; rewrite Hadds; unfold aexit;
    run_monad.
  all: rewrite <- ?app_assoc.
  all: match goal with
       | H : connects ?k = [] |- context [(?x, _ ++ ?a ++ ?b ++ ?l ++ ?k ++ _)] =>
           exists x, (a ++ b ++ l), k
       end.
  all: split; [rewrite <- ?app_assoc; reflexivity|].
  all: rewrite !connects_app, !closes_app, Hco, Hcl.
  all: repeat split; try reflexivity; try assumption.
Qed.

End FacadeFacts.

#[local] Arguments order_rows : simpl never.
#[local] Arguments mapR : simpl never.
#[local] Arguments active_positions : simpl never.
#[local] Arguments subscript : simpl never.
#[local] Arguments py_get : simpl never.
#[local] Arguments py_float : simpl never.
#[local] Arguments py_len : simpl never.
#[local] Arguments py_iter : simpl never.
#[local] Arguments truthy : simpl never.
#[local] Arguments symbol_filter : simpl never.

Ltac unfold_blocks :=
  unfold command_block, market_order_block, limit_order_block,
    stop_limit_order_block, get_price_block, get_balance_block,
    list_orders_block, get_position_block, cancel_order_block, _display_order,
    place_futures_market_order, place_futures_limit_order,
    place_stop_limit_order, get_current_price, get_account_balance,
    cancel_order, get_open_orders, get_position_info.

(** ** Upper case *)

Lemma upper_ascii_cased (c : ascii) :
  if is_lower c then nat_of_ascii (upper_ascii c) + 32 = nat_of_ascii c
  else upper_ascii c = c.
Proof.
  destruct c as [[] [] [] [] [] [] [] []]; vm_compute; reflexivity.
Qed.

Lemma upper_is_upper_cased (s : string) : upper_cased s (upper s).
Proof.
  induction s as [|c s IH]; [exact I|].
  change (upper (String c s)) with (String (upper_ascii c) (upper s)).
  cbn [upper_cased]. split; [apply upper_ascii_cased | exact IH].
Qed.

(** There is one way to write a text in upper case. *)
Lemma upper_cased_unique (s x y : string) :
  upper_cased s x -> upper_cased s y -> x = y.
Proof.
  revert x y. induction s as [|c s IH]; intros [|d x] [|d' y]; cbn;
    try tauto.
  intros [Hd Hx] [Hd' Hy]. f_equal; [|eauto].
  destruct (is_lower c); [|congruence].
  rewrite <- (ascii_nat_embedding d), <- (ascii_nat_embedding d').
  f_equal. apply Nat.add_cancel_r with (p := 32). congruence.
Qed.

Section CliFacts.
Context {F : Type} {PF : PyFloat F} {RC : RichConsole}.
Variable ex : Exchange F.
Variable settings : Settings.

Lemma command_block_keeps_connection (cmd : Command) :
  keeps_connection (command_block ex cmd).
Proof.
  intros s. destruct cmd; unfold_blocks; run_monad; split_run; name_added.
Qed.

Lemma symbol_filter_some (symbol : option string) (x : string) :
  symbol_filter symbol = Some x ->
  exists sym, symbol = Some sym /\ x = upper sym.
Proof.
  unfold symbol_filter. destruct symbol as [sy|]; [|discriminate].
  destruct (str_truthy sy); [|discriminate].
  intros H. inversion H. eauto.
Qed.

Lemma symbol_filter_nonempty (sym : string) :
  sym <> "" -> symbol_filter (Some sym) = Some (upper sym).
Proof.
  unfold symbol_filter. destruct sym; [congruence | reflexivity].
Qed.

(** The symbol an optional argument puts in the request. *)
Lemma optional_symbol_sent (symbol : option string) (m : string) :
  match symbol with
  | None =>
      request_symbol (@mkRequest F m [("symbol", opt_symbol (symbol_filter symbol))])
        = None
  | Some sym =>
      match request_symbol
              (@mkRequest F m [("symbol", opt_symbol (symbol_filter symbol))]) with
      | Some x => upper_cased sym x
      | None => sym = ""
      end
  end.
Proof.
  destruct symbol as [[|a sym]|]; try reflexivity.
  rewrite symbol_filter_nonempty by discriminate.
  apply upper_is_upper_cased.
Qed.

(** C7: in the block of every command, a request made for a command line
    without a symbol carries none, and a request made for a command line
    whose symbol is ASCII text carries that symbol written in upper case:
    the same characters, each lower-case letter replaced by its capital.
    Only the empty optional symbol of the orders and position commands is
    sent as no symbol at all.  On an entered facade, the side being valid
    where there is one, exactly one request is made. *)
Theorem symbol_sent_upper_cased (cmd : Command) (s : Sys F) :
  exists r new,
    adds (command_block ex cmd) s r new
    /\ (forall q, In q (requests_of new) ->
          match command_symbol cmd with
          | None => request_symbol q = None
          | Some sym =>
              ascii_text sym = true ->
              match request_symbol q with
              | Some x => upper_cased sym x
              | None => sym = ""
              end
          end)
    /\ (forall c, client (self s) = Some c ->
          (forall sd, command_side cmd = Some sd -> side_invalid (upper sd) = false) ->
          List.length (requests_of new) = 1%nat).
Proof.
  destruct cmd; unfold_blocks; run_monad; split_run.
  all: eexists; eexists; (split; [rewrite <- ?app_assoc; reflexivity|]).
  all: split;
    [ intros q Hin;
      cbv beta iota zeta delta [requests_of flat_map app In] in Hin;
      repeat match type of Hin with
             | _ \/ _ => destruct Hin as [Hin|Hin]
             | False => destruct Hin
             end;
      subst q; cbn [command_symbol];
      try reflexivity;
      try (intros _; apply upper_is_upper_cased);
      try (intros _;
           match goal with
           | |- context [symbol_filter (Some ?sy)] =>
               exact (optional_symbol_sent (Some sy) _)
           end)
    | intros c' Hc' Hside'; cbn in Hside';
      try (specialize (Hside' _ eq_refl)); try congruence; reflexivity ].
Qed.

Lemma is_active_amount (p : PyVal F) :
  is_active p
    = rbind (position_amount p) (fun x => Ok (negb (float_is_zero x))).
Proof.
  unfold is_active, position_amount.
  destruct (py_get p "positionAmt" (VInt 0)); reflexivity.
Qed.

Lemma filterR_is_active (ps : list (PyVal F)) :
  Forall has_amount ps ->
  exists active,
    filterR is_active ps = Ok active
    /\ forall p, In p active <-> In p ps /\ nonzero_amount p.
Proof.
  induction 1 as [|p ps [x Hx] _ (active & Hact & Hin)].
  - exists []. split; [reflexivity|]. cbn. tauto.
  - cbn [filterR]. rewrite is_active_amount, Hx, Hact. cbn [rbind].
    destruct (float_is_zero x) eqn:Hz; cbn [negb].
    + exists active. split; [reflexivity|]. intros q. rewrite Hin. cbn [In].
      split; [tauto|]. intros [[<-|Hq] Hnz]; [|tauto].
      destruct Hnz as (y & Hy & Hyz). congruence.
    + exists (p :: active). split; [reflexivity|]. intros q. cbn [In].
      rewrite Hin. split.
      * intros [<-|[Hq Hnz]]; [|tauto]. split; [tauto|]. exists x. tauto.
      * tauto.
Qed.

Lemma filterR_all_zero (ps : list (PyVal F)) :
  Forall zero_amount ps -> filterR is_active ps = Ok [].
Proof.
  induction 1 as [|p ps (x & Hx & Hz) _ IH]; [reflexivity|].
  cbn [filterR]. rewrite is_active_amount, Hx, IH. cbn [rbind].
  rewrite Hz. reflexivity.
Qed.

Lemma mapR_cons {A B} (f : A -> Result B) (x : A) (l : list A) :
  mapR f (x :: l)
    = rbind (f x) (fun y => rbind (mapR f l) (fun ys => Ok (y :: ys))).
Proof. reflexivity. Qed.

Lemma mapR_length {A B} (f : A -> Result B) (l : list A) (rows : list B) :
  mapR f l = Ok rows -> List.length rows = List.length l.
Proof.
  revert rows. induction l as [|x l IH]; intros rows H.
  - inversion H. reflexivity.
  - rewrite mapR_cons in H. unfold rbind in H.
    destruct (f x); try discriminate.
    destruct (mapR f l); try discriminate.
    inversion H. cbn [List.length]. f_equal. auto.
Qed.

Lemma no_active_positions_renders :
  markup_error (nl +++ "[yellow]No active positions[/yellow]") = None.
Proof. apply fixed_lines_render. unfold fixed_lines. cbn [In]. tauto. Qed.

Lemma no_open_orders_renders :
  markup_error (nl +++ "[yellow]No open orders found[/yellow]") = None.
Proof. apply fixed_lines_render. unfold fixed_lines. cbn [In]. tauto. Qed.

(** C8: when the exchange answers the position request of the command
    with the entries [ps], each with an amount that [float] reads, the
    facade returns [ps] as it is, and the display set of the CLI is made of
    exactly the entries of [ps] whose amount is not zero.  If every amount
    is zero the set is empty; an empty set prints the "No active positions"
    line and no table; a non-empty one, when a row can be built of each of
    its entries and the console renders their texts, prints the table of
    these rows, one per entry of the set. *)
Theorem position_display_keeps_nonzero_entries
    (symbol : option string) (s : Sys F) (c : Client) (ps : list (PyVal F)) :
  client (self s) = Some c ->
  respond ex (requests_of (events s)) c
    (mkRequest "futures_position_information"
       [("symbol", opt_symbol (symbol_filter symbol))]) = Ok (VList ps) ->
  Forall has_amount ps ->
  (exists new,
     adds (get_position_info ex (symbol_filter symbol)) s (Ok (VList ps)) new)
  /\ exists active,
       active_positions (VList ps) = Ok active
       /\ (forall p, In p active <-> In p ps /\ nonzero_amount p)
       /\ (Forall zero_amount ps -> active = [])
       /\ (active = [] ->
           exists new,
             adds (get_position_block ex symbol) s (Ok tt) new
             /\ printed new = [nl +++ "[yellow]No active positions[/yellow]"]
             /\ tables new = [])
       /\ (active <> [] ->
           forall rows, mapR position_row active = Ok rows ->
           first_markup_error
             (table_texts "Active Positions"
                ["Symbol"; "Amount"; "Entry Price"; "Mark Price"; "PnL"] rows)
             = None ->
           List.length rows = List.length active
           /\ exists new,
                adds (get_position_block ex symbol) s (Ok tt) new
                /\ printed new = [] /\ tables new = [rows]).
Proof.
  intros Hc Hr Hps.
  split.
  { unfold get_position_info. run_monad. rewrite Hc. cbn. rewrite Hr. cbn.
    name_added. }
  destruct (filterR_is_active ps Hps) as (active & Hact & Hin).
  assert (Hset : active_positions (VList ps) = Ok active)
    by (unfold active_positions, py_iter; cbn [rbind]; exact Hact).
  exists active. split; [exact Hset|]. split; [exact Hin|]. split.
  { intros Hz. apply filterR_all_zero in Hz. congruence. }
  split.
  - intros ->. unfold get_position_block, get_position_info. run_monad.
    rewrite Hc. cbn. rewrite Hr. cbn. rewrite Hset. cbn.
    rewrite no_active_positions_renders. cbn. name_added.
  - intros Hne rows Hrows Hrender.
    split; [exact (mapR_length _ _ _ Hrows)|].
    destruct active as [|p active]; [congruence|].
    unfold get_position_block, get_position_info. run_monad.
    rewrite Hc. cbn. rewrite Hr. cbn. rewrite Hset. cbn. rewrite Hrows. cbn.
    rewrite Hrender. cbn. name_added.
Qed.

(** C10: an entry without the field "positionAmt" is read as amount 0 and
    is not active; taking it out of the answer changes nothing in the
    display set, errors of other entries included.  Every entry of a
    display set has the field, with a non-zero amount. *)
Theorem missing_amount_is_left_out
    (d : list (string * PyVal F)) (before after : list (PyVal F)) :
  assoc "positionAmt" d = None ->
  position_amount (VDict d) = Ok (float_of_Z 0)
  /\ is_active (VDict d) = Ok false
  /\ active_positions (VList (before ++ VDict d :: after))
       = active_positions (VList (before ++ after))
  /\ (forall ps active p,
        active_positions (VList ps) = Ok active -> In p active ->
        exists raw x,
          subscript p "positionAmt" = Ok raw
          /\ py_float raw = Ok x /\ float_is_zero x = false).
Proof.
  intros Hd.
  assert (Hamt : position_amount (VDict d) = Ok (float_of_Z 0))
    by (unfold position_amount, py_get, py_float; rewrite Hd; cbn [rbind];
        rewrite float_fits_zero; reflexivity).
  assert (Hinactive : is_active (VDict d) = Ok false)
    by (rewrite is_active_amount, Hamt; cbn [rbind];
        rewrite float_zero_is_zero; reflexivity).
  split; [exact Hamt|]. split; [exact Hinactive|]. split.
  - unfold active_positions, py_iter. cbn [rbind].
    induction before as [|b before IH].
    + rewrite !app_nil_l. cbn [filterR]. rewrite Hinactive. cbn [rbind].
      destruct (filterR is_active after); reflexivity.
    + rewrite <- !app_comm_cons. cbn [filterR]. rewrite IH. reflexivity.
  - intros ps. unfold active_positions, py_iter. cbn [rbind].
    induction ps as [|q ps IH]; intros active p Hact Hin; cbn [filterR] in Hact.
    + inversion Hact; subst. destruct Hin.
    + destruct (is_active q) as [keep| |] eqn:Hq; cbn [rbind] in Hact;
        try discriminate.
      destruct (filterR is_active ps) as [rest| |]; cbn [rbind] in Hact;
        try discriminate.
      destruct keep; inversion Hact; subst; [|eauto].
      destruct Hin as [<-|Hin]; [|eauto].
      clear IH Hact. unfold is_active, py_get in Hq. unfold subscript.
      destruct q; try discriminate.
      destruct (assoc "positionAmt" d0) as [raw|] eqn:Hraw; cbn [rbind] in Hq.
      * exists raw. destruct (py_float raw) as [x| |]; cbn [rbind] in Hq;
          try discriminate.
        exists x. inversion Hq as [Hz].
        destruct (float_is_zero x); [cbn in Hz; discriminate|auto].
      * unfold py_float in Hq. rewrite float_fits_zero in Hq.
        cbn [rbind] in Hq. rewrite float_zero_is_zero in Hq.
        discriminate.
Qed.

(** C5: the market command line "btcusdt" "buy" 0.001 (any quantity, in
    fact) stops at the constructor call, which passes no logger: the command
    raises TypeError and the trace is left as it was, so no request reaches
    the exchange client. *)
Theorem market_command_stops_at_constructor
    (st : State) (quantity : F) (evs : list (Event F)) :
  market_order ex settings st "btcusdt" "buy" quantity evs
    = (Raise (TypeError
         "TradeService.__init__() missing 1 required positional argument: 'logger'"),
       evs).
Proof. reflexivity. Qed.

(** Every command line stops the same way. *)
Lemma every_command_stops_at_constructor
    (st : State) (cmd : Command) (evs : list (Event F)) :
  exists msg, run_command ex settings st cmd evs = (Raise (TypeError msg), evs).
Proof. destruct cmd; eexists; reflexivity. Qed.

(** The block of the market command on an entered facade whose exchange
    answers: one request, with the upper-cased symbol and side. *)
Lemma market_block_sends_one_order
    (quantity : F) (s : Sys F) (c : Client) :
  client (self s) = Some c ->
  exists r new,
    adds (market_order_block ex "btcusdt" "buy" quantity) s r new
    /\ requests_of new =
         [mkRequest "futures_create_order"
            [("symbol", VStr "BTCUSDT"); ("side", VStr "BUY");
             ("type", VStr "MARKET"); ("quantity", VFloat quantity)]].
Proof.
  intros Hc. unfold market_order_block, _display_order,
    place_futures_market_order.
  change (upper "btcusdt") with "BTCUSDT". change (upper "buy") with "BUY".
  run_monad. change (side_invalid "BUY") with false. cbn. rewrite Hc. cbn.
  split_run; name_added.
Qed.

End CliFacts.

(** ** Concrete runs *)

Example upper_btcusdt : upper "btcusdt" = "BTCUSDT".
Proof. reflexivity. Qed.

Example upper_keeps_digits : upper "1000pepeUsdt" = "1000PEPEUSDT".
Proof. reflexivity. Qed.

Example upper_cased_ethusdt :
  upper_cased "ethUsdt" "ETHUSDT" /\ ~ upper_cased "ethUsdt" "ethUsdt".
Proof. split; [vm_compute; tauto|]. vm_compute. intros [H _]. discriminate H. Qed.

Example str_of_order_id : str_of_Z 12345 = "12345" /\ str_of_Z (-7) = "-7".
Proof. split; reflexivity. Qed.

Example side_check :
  side_invalid "BUY" = false /\ side_invalid "SELL" = false
  /\ side_invalid "buy" = true /\ side_invalid "" = true.
Proof. repeat split; reflexivity. Qed.

(** Floats of the examples, read and printed as Python does. *)
Example float_texts :
  option_map float_repr (float_of_str "0.001") = Some "0.001"
  /\ option_map float_repr (float_of_str "50000") = Some "50000.0"
  /\ option_map fmt_2f (float_of_str "100") = Some "100.00"
  /\ option_map fmt_comma_2f (float_of_str "1234567.891") = Some "1,234,567.89"
  /\ option_map fmt_comma_2f (float_of_str "-12.5") = Some "-12.50"
  /\ float_of_str "12 usd" = @None Demo.Dec.
Proof. repeat split; vm_compute; reflexivity. Qed.

(** [float] of an int within and beyond the range of a double. *)
Example float_of_large_int :
  rbind (py_float (@VInt Demo.Dec 5)) (fun x => Ok (float_repr x)) = Ok "5.0"
  /\ py_float (@VInt Demo.Dec (10 ^ 400))
     = Raise (OverflowError "int too large to convert to float").
Proof. split; vm_compute; reflexivity. Qed.

(** What the console of the examples accepts and refuses. *)
Example markup_of_examples :
  markup_error "[green]$500.00[/green]" = None
  /\ markup_error "BTCUSDT" = None
  /\ markup_error "[/b]"
     = Some "closing tag '[/b]' at position 0 doesn't match any open tag"
  /\ markup_error "pnl [/]"
     = Some "closing tag '[/]' at position 4 has nothing to close".
Proof. repeat split; vm_compute; reflexivity. Qed.

(** A cancel that the exchange rejects, inside one scoped use: connect,
    call, error log, and still the release. *)
Example rejected_cancel_trace :
  async_with Demo.rejecting (Ok Demo.fresh)
    (cancel_order Demo.rejecting "BTCUSDT" 12345) []
  = (Raise Demo.rejection,
     [EvCreate "key" "secret" (Some true);
      EvConnected 7;
      EvLog INFO [] "Connected to Binance Futures TESTNET";
      EvCall 7 (mkRequest "futures_cancel_order"
                  [("symbol", VStr "BTCUSDT"); ("orderId", VInt 12345)]);
      EvLog ERROR []
        "Failed to cancel order: APIError(code=-2011): Unknown order sent.";
      EvClose 7;
      EvLog INFO [] "Connection Closed"]).
Proof. reflexivity. Qed.

(** The same use when the asyncio task is cancelled during the call: no
    error log, and still the release. *)
Example interrupted_cancel_trace :
  async_with Demo.interrupted (Ok Demo.fresh)
    (cancel_order Demo.interrupted "BTCUSDT" 12345) []
  = (Abort Demo.cancelled,
     [EvCreate "key" "secret" (Some true);
      EvConnected 7;
      EvLog INFO [] "Connected to Binance Futures TESTNET";
      EvCall 7 (mkRequest "futures_cancel_order"
                  [("symbol", VStr "BTCUSDT"); ("orderId", VInt 12345)]);
      EvClose 7;
      EvLog INFO [] "Connection Closed"]).
Proof. reflexivity. Qed.

(** The block of the market command on an entered facade: one order
    request with upper-cased symbol and side, then the audit line and the
    table. *)
Example market_block_trace :
  market_order_block Demo.accepting "btcusdt" "buy" Demo.qty Demo.start
  = (Ok tt,
     mkSys Demo.opened
       [EvLog INFO [] "Placing MARKET BUY order: 0.001 BTCUSDT";
        EvCall 7 (mkRequest "futures_create_order"
                    [("symbol", VStr "BTCUSDT"); ("side", VStr "BUY");
                     ("type", VStr "MARKET"); ("quantity", VFloat Demo.qty)]);
        EvLog INFO ["trade"]
          "MARKET BUY | BTCUSDT | Qty: 0.001 | Order ID: 42 | Status: NEW";
        EvPrint (nl +++ "[green]✓ Market Order Placed Successfully[/green]");
        EvTable "Order Details" ["Field"; "Value"]
          [["Order ID"; "42"]; ["Price"; "50000"]; ["Status"; "NEW"]]]).
Proof. vm_compute. reflexivity. Qed.

(** The price command's block with a mixed-case symbol. *)
Example price_block_trace :
  get_price_block Demo.accepting "ethUsdt" Demo.start
  = (Ok tt,
     mkSys Demo.opened
       [EvCall 7 (mkRequest "futures_symbol_ticker" [("symbol", VStr "ETHUSDT")]);
        EvLog INFO [] "Current price for ETHUSDT: $50000.0";
        EvPrint (nl +++ "[cyan]ETHUSDT:[/cyan] [green]$50,000.00[/green]")]).
Proof. vm_compute. reflexivity. Qed.

(** The position command's block when every position is flat. *)
Example flat_positions_trace :
  get_position_block Demo.all_flat (Some "ethusdt") Demo.start
  = (Ok tt,
     mkSys Demo.opened
       [EvCall 7 (mkRequest "futures_position_information"
                    [("symbol", VStr "ETHUSDT")]);
        EvLog INFO [] "Position info retrieved for ETHUSDT";
        EvPrint (nl +++ "[yellow]No active positions[/yellow]")]).
Proof. vm_compute. reflexivity. Qed.

(** The same block with one open position among three. *)
Example mixed_positions_table :
  tables (events (snd (get_position_block Demo.mixed None Demo.start)))
  = [[["BTCUSDT"; "0.5"; "50000"; "51000"; "[green]$500.00[/green]"]]].
Proof. vm_compute. reflexivity. Qed.

Example display_of_mixed_positions :
  active_positions (VList [Demo.flat; Demo.long; Demo.bare]) = Ok [Demo.long].
Proof. vm_compute. reflexivity. Qed.

(** An open position whose amount came as a number: the row is refused
    and the command raises, having printed nothing. *)
Example numeric_amount_is_no_cell :
  get_position_block Cases.numbers None Demo.start
  = (Raise (NotRenderableError
       "unable to render int; a string or other renderable object is required"),
     mkSys Demo.opened
       [EvCall 7 (mkRequest "futures_position_information" [("symbol", VNone)]);
        EvLog INFO [] "Position info retrieved for all symbols"]).
Proof. vm_compute. reflexivity. Qed.

(** C1, counterexample: the constructor call that every command makes,
    with the mode flag and both credentials but no logger, does not yield a
    facade. *)
Lemma constructor_call_of_commands_fails :
  new_service Demo.settings Demo.state
    = Raise (TypeError
        "TradeService.__init__() missing 1 required positional argument: 'logger'")
  /\ is_ok (TradeService_init Demo.settings None (Some true) (Some "key")
              (Some "secret")) = false.
Proof. split; reflexivity. Qed.

(** The constructor with a logger, then [__aenter__], on the accepting
    exchange. *)
Lemma facade_constructed_with_logger_witness :
  create Demo.accepting "key" "secret" (Some true) = Ok 7%nat
  /\ TradeService_init Demo.settings (Some Demo.the_logger) (Some true)
       (Some "key") (Some "secret") = Ok Demo.fresh
  /\ exists pre,
       aenter Demo.accepting (mkSys Demo.fresh [])
         = (Ok tt, mkSys Demo.opened ([] ++ pre))
       /\ connects pre = [7%nat].
Proof.
  split; [reflexivity|].
  exact (facade_constructed_with_logger Demo.accepting Demo.settings
           Demo.the_logger true "key" "secret" [] 7%nat eq_refl).
Defined.

(** The side "HOLD" on a market order. *)
Lemma invalid_side_rejected_before_remote_witness :
  "HOLD" <> "BUY" /\ "HOLD" <> "SELL"
  /\ adds (place_futures_market_order Demo.accepting "BTCUSDT" "HOLD" Demo.qty)
       Demo.start
       (Raise (ValueError "Invalid SIDE: HOLD. Must be 'BUY' or 'SELL'"))
       [EvLog ERROR []
          "Market order failed: Invalid SIDE: HOLD. Must be 'BUY' or 'SELL'"].
Proof.
  assert (Hb : "HOLD" <> "BUY") by discriminate.
  assert (Hs : "HOLD" <> "SELL") by discriminate.
  split; [exact Hb|]. split; [exact Hs|].
  exact (proj1 (invalid_side_rejected_before_remote Demo.accepting
                  "BTCUSDT" "HOLD" Demo.qty Demo.qty Demo.qty Demo.start Hb Hs)).
Defined.

(** C3, counterexample: the asyncio task is cancelled while the cancel
    request is under way.  The request ends with CancelledError, which goes
    through the operation, and no error-level entry is logged. *)
Lemma cancelled_call_is_not_logged :
  respond Demo.interrupted (requests_of (events Demo.start)) 7%nat
    (mkRequest "futures_cancel_order"
       [("symbol", VStr "BTCUSDT"); ("orderId", VInt 12345)])
    = Abort Demo.cancelled
  /\ adds (cancel_order Demo.interrupted "BTCUSDT" 12345) Demo.start
       (Abort Demo.cancelled)
       [EvCall 7 (mkRequest "futures_cancel_order"
                    [("symbol", VStr "BTCUSDT"); ("orderId", VInt 12345)])]
  /\ error_logs
       [@EvCall Demo.Dec 7 (mkRequest "futures_cancel_order"
                    [("symbol", VStr "BTCUSDT"); ("orderId", VInt 12345)])]
     = [].
Proof. repeat split. Qed.

(** A cancel that the exchange rejects, on an exchange that answers every
    other call. *)
Lemma remote_failure_logged_and_reraised_witness :
  client (self Demo.start) = Some 7%nat
  /\ respond Demo.rejecting_cancel (requests_of (events Demo.start)) 7%nat
       (mkRequest "futures_cancel_order"
          [("symbol", VStr "BTCUSDT"); ("orderId", VInt 12345)])
     = Raise Demo.rejection
  /\ exists new,
       adds (run_op Demo.rejecting_cancel (OpCancel "BTCUSDT" 12345)) Demo.start
         (Raise Demo.rejection) new
       /\ error_logs new
            = ["Failed to cancel order: APIError(code=-2011): Unknown order sent."]
       /\ requests_of new
            = [mkRequest "futures_cancel_order"
                 [("symbol", VStr "BTCUSDT"); ("orderId", VInt 12345)]].
Proof.
  split; [reflexivity|]. split; [reflexivity|].
  refine (proj1 (remote_failure_logged_and_reraised Demo.rejecting_cancel
                   (OpCancel "BTCUSDT" 12345) Demo.start 7%nat eq_refl _)
            Demo.rejection eq_refl).
  intros sd H. discriminate H.
Defined.

(** A scoped use whose operation raises: the handle is still released. *)
Lemma scoped_use_opens_then_closes_witness :
  keeps_connection (run_op Demo.rejecting (OpCancel "BTCUSDT" 12345))
  /\ exists r pre blk,
       async_with Demo.rejecting (Ok Demo.fresh)
         (run_op Demo.rejecting (OpCancel "BTCUSDT" 12345)) []
         = (r, [] ++ pre ++ blk
                 ++ [EvClose 7%nat; EvLog INFO [] "Connection Closed"])
       /\ connects pre = [7%nat] /\ closes pre = [] /\ requests_of pre = []
       /\ adds (run_op Demo.rejecting (OpCancel "BTCUSDT" 12345))
            (mkSys Demo.opened ([] ++ pre)) r blk
       /\ connects blk = [] /\ closes blk = []
       /\ connects (pre ++ blk ++ [EvClose 7%nat]) = [7%nat]
       /\ closes (pre ++ blk ++ [EvClose 7%nat]) = [7%nat].
Proof.
  split; [apply run_op_keeps_connection|].
  exact (scoped_use_opens_then_closes Demo.rejecting Demo.fresh
           (run_op Demo.rejecting (OpCancel "BTCUSDT" 12345)) []
           (run_op_keeps_connection Demo.rejecting _)).
Defined.

(** A stop-limit sell on the accepting exchange. *)
Lemma stop_limit_goes_through_create_order_witness :
  client (self Demo.start) = Some 7%nat
  /\ side_invalid "SELL" = false
  /\ exists r new,
       adds (place_stop_limit_order Demo.accepting "BTCUSDT" "SELL"
               Demo.qty Demo.qty Demo.qty) Demo.start r new
       /\ requests_of new =
            [mkRequest "create_order"
               [("symbol", VStr "BTCUSDT"); ("side", VStr "SELL");
                ("type", VStr "STOP_LOSS_LIMIT"); ("quantity", VFloat Demo.qty);
                ("price", VFloat Demo.qty); ("stopPrice", VFloat Demo.qty)]].
Proof.
  split; [reflexivity|]. split; [reflexivity|].
  exact (proj1 (proj2 (stop_limit_goes_through_create_order Demo.accepting
                         "BTCUSDT" "SELL" Demo.qty Demo.qty Demo.qty
                         Demo.start 7%nat eq_refl) eq_refl)).
Defined.

(** A stop-limit sell that the exchange rejects. *)
Lemma stop_limit_failure_logged_as_market_witness :
  place_stop_limit_order Demo.rejecting "BTCUSDT" "SELL"
      Demo.qty Demo.qty Demo.qty Demo.start
    = (Raise Demo.rejection,
       snd (place_stop_limit_order Demo.rejecting "BTCUSDT" "SELL"
              Demo.qty Demo.qty Demo.qty Demo.start))
  /\ exists new,
       snd (place_stop_limit_order Demo.rejecting "BTCUSDT" "SELL"
              Demo.qty Demo.qty Demo.qty Demo.start)
         = mkSys (self Demo.start) (events Demo.start ++ new)
       /\ error_logs new
            = ["Market order failed: APIError(code=-2011): Unknown order sent."].
Proof.
  split; [reflexivity|].
  exact (stop_limit_failure_logged_as_market Demo.rejecting "BTCUSDT" "SELL"
           Demo.qty Demo.qty Demo.qty Demo.start _ Demo.rejection eq_refl).
Defined.

(** The price command with a mixed-case symbol: the one request carries
    "ETHUSDT". *)
Lemma symbol_sent_upper_cased_witness :
  ascii_text "ethUsdt" = true
  /\ client (self Demo.start) = Some 7%nat
  /\ exists r new,
       adds (command_block Demo.accepting (CmdPrice "ethUsdt")) Demo.start r new
       /\ requests_of new
            = [mkRequest "futures_symbol_ticker" [("symbol", VStr "ETHUSDT")]]
       /\ (forall q, In q (requests_of new) ->
             match request_symbol q with
             | Some x => upper_cased "ethUsdt" x
             | None => "ethUsdt" = ""
             end)
       /\ List.length (requests_of new) = 1%nat.
Proof.
  split; [reflexivity|]. split; [reflexivity|].
  destruct (symbol_sent_upper_cased Demo.accepting (CmdPrice "ethUsdt")
              Demo.start) as (r & new & Hadds & Hsym & Hone).
  exists r, new. split; [exact Hadds|]. split.
  - unfold adds in Hadds. vm_compute in Hadds.
    injection Hadds as _ Hnew. subst new. reflexivity.
  - split.
    + intros q Hq. exact (Hsym q Hq eq_refl).
    + apply (Hone 7%nat eq_refl). intros sd H. discriminate H.
Defined.

(** Three positions, one of them open: the display set is that one, and
    its row is the table. *)
Lemma position_display_keeps_nonzero_entries_witness :
  client (self Demo.start) = Some 7%nat
  /\ respond Demo.mixed (requests_of (events Demo.start)) 7%nat
       (mkRequest "futures_position_information" [("symbol", VStr "BTCUSDT")])
     = Ok (VList [Demo.flat; Demo.long; Demo.bare])
  /\ Forall has_amount [Demo.flat; Demo.long; Demo.bare]
  /\ active_positions (VList [Demo.flat; Demo.long; Demo.bare]) = Ok [Demo.long]
  /\ (forall p, In p [Demo.long] <->
        In p [Demo.flat; Demo.long; Demo.bare] /\ nonzero_amount p)
  /\ exists new,
       adds (get_position_block Demo.mixed (Some "btcusdt")) Demo.start
         (Ok tt) new
       /\ printed new = []
       /\ tables new
          = [[["BTCUSDT"; "0.5"; "50000"; "51000"; "[green]$500.00[/green]"]]].
Proof.
  assert (Hps : Forall has_amount [Demo.flat; Demo.long; Demo.bare])
    by (repeat constructor; eexists; vm_compute; reflexivity).
  split; [reflexivity|]. split; [reflexivity|]. split; [exact Hps|].
  destruct (position_display_keeps_nonzero_entries Demo.mixed
              (Some "btcusdt") Demo.start 7%nat
              [Demo.flat; Demo.long; Demo.bare]
              eq_refl eq_refl Hps)
    as (_ & active & Hact & Hin & _ & _ & Htable).
  assert (E : active = [Demo.long])
    by (vm_compute in Hact; injection Hact as <-; vm_compute; reflexivity).
  subst active.
  split; [vm_compute; reflexivity|]. split; [exact Hin|].
  assert (Hne : [Demo.long] <> []) by discriminate.
  refine (proj2 (Htable Hne
            [["BTCUSDT"; "0.5"; "50000"; "51000"; "[green]$500.00[/green]"]]
            _ _)); vm_compute; reflexivity.
Defined.

(** An entry that only has a symbol, between two others. *)
Lemma missing_amount_is_left_out_witness :
  assoc "positionAmt" [("symbol", @VStr Demo.Dec "XRPUSDT")] = None
  /\ is_active Demo.bare = Ok false
  /\ active_positions (VList ([Demo.flat] ++ Demo.bare :: [Demo.long]))
       = active_positions (VList ([Demo.flat] ++ [Demo.long])).
Proof.
  split; [reflexivity|].
  destruct (missing_amount_is_left_out [("symbol", VStr "XRPUSDT")]
              [Demo.flat] [Demo.long] eq_refl)
    as (_ & Hinactive & Hsame & _).
  split; [exact Hinactive | exact Hsame].
Defined.

(** ** Further properties of the facade *)

#[local] Arguments call_handles : simpl never.
#[local] Arguments file_lines : simpl never.

Section FacadeMore.
Context {F : Type} {PF : PyFloat F}.
Variable ex : Exchange F.

(** X1: however an operation of the facade ends, it leaves the facade
    object as it was and sends at most one request.  It writes an
    error-level entry exactly when it raises an instance of Exception: then
    one entry, the operation's prefix followed by the message of the
    exception.  When it returns there is none, and none either when an
    exception that is no instance of Exception, such as the cancellation of
    the asyncio task, goes through it. *)
Theorem operation_logs_error_iff_raises (op : Op) (s : Sys F) :
  exists r new,
    adds (run_op ex op) s r new
    /\ (List.length (requests_of new) <= 1)%nat
    /\ error_logs new
         = match r with
           | Raise e => [op_error_prefix op +++ str_exn e]
           | Ok _ => []
           | Abort _ => []
           end.
Proof.
  destruct op; unfold_ops; run_monad; split_run;
    eexists; eexists; (split; [rewrite <- ?app_assoc; reflexivity|]);
    (split; [vm_compute; repeat constructor | reflexivity]).
Qed.

(** X2: on a facade that holds no handle, every operation raises and
    nothing is sent to the exchange client. *)
Theorem no_request_without_handle (op : Op) (s : Sys F) :
  client (self s) = None ->
  exists e new,
    adds (run_op ex op) s (Raise e) new
    /\ requests_of new = [] /\ call_handles new = [].
Proof.
  destruct s as [[lg tn key secret cl] evs]. cbn. intros ->.
  destruct op; unfold_ops; run_monad; split_run; name_added.
Qed.

(** X3: what an operation returns is what the exchange client answered to
    the one request it made on the facade's handle: the answer itself,
    or, for the price and the balance, the float read from the answer's
    field. *)
Theorem result_is_exchange_answer
    (op : Op) (s : Sys F) (v : PyVal F) (new : list (Event F)) :
  adds (run_op ex op) s (Ok v) new ->
  exists c req answer,
    client (self s) = Some c
    /\ requests_of new = [req] /\ call_handles new = [c]
    /\ respond ex (requests_of (events s)) c req = Ok answer
    /\ match op with
       | OpPrice _ =>
           exists x, subscript answer "price" = Ok x
                     /\ rbind (py_float x) (fun y => Ok (VFloat y)) = Ok v
       | OpBalance =>
           exists x, subscript answer "totalWalletBalance" = Ok x
                     /\ rbind (py_float x) (fun y => Ok (VFloat y)) = Ok v
       | _ => v = answer
       end.
Proof.
  unfold adds. intros H.
  destruct op; revert H; unfold_ops; run_monad;
    split_run; intros H; try discriminate H;
    rewrite ?requests_of_log in *;
    inversion H as [[Hv Hev]]; rewrite <- ?app_assoc in Hev;
    apply app_inv_head in Hev; subst;
    eexists; eexists; eexists;
    (split; [reflexivity|]); (split; [reflexivity|]);
    (split; [reflexivity|]); (split; [eassumption|]);
    try reflexivity;
    eexists; (split; [eassumption|]);
    match goal with Hf : py_float _ = _ |- _ => rewrite Hf end; reflexivity.
Qed.

(** X4: an order placement whose request the exchange answers with
    something that has no readable "orderId" or "status" raises the
    lookup's exception although the order request was sent; the failure is
    logged like any other. *)
Theorem order_sent_but_answer_unreadable
    (op : Op) (s : Sys F) (c : Client) (sd : string) (order : PyVal F)
    (err : exn) :
  client (self s) = Some c ->
  op_side op = Some sd ->
  side_invalid sd = false ->
  respond ex (requests_of (events s)) c (op_request op) = Ok order ->
  rbind (subscript order "orderId") (fun _ => subscript order "status")
    = Raise err ->
  exists new,
    adds (run_op ex op) s (Raise err) new
    /\ requests_of new = [op_request op]
    /\ error_logs new = [op_error_prefix op +++ str_exn err].
Proof.
  intros Hc Hop Hside Hr Herr.
  destruct op; cbn in Hop; try discriminate Hop;
    inversion Hop; subst sd; cbn in Hr;
    unfold_ops; run_monad; rewrite Hside; cbn; rewrite Hc; cbn;
    rewrite requests_of_log, Hr; cbn;
    (destruct (subscript order "orderId"); cbn in Herr;
     [ rewrite Herr | inversion Herr; subst | discriminate Herr ]);
    cbn; name_added.
Qed.

(** X5: with a valid side on an entered facade, the market placement sends
    symbol, side, type MARKET and quantity, and the limit placement sends
    symbol, side, type LIMIT, timeInForce GTC, quantity and price; each
    sends that one request whatever the exchange then answers. *)
Theorem market_and_limit_requests
    (symbol side : string) (quantity price : F) (s : Sys F) (c : Client) :
  client (self s) = Some c ->
  side_invalid side = false ->
  (exists r new,
     adds (place_futures_market_order ex symbol side quantity) s r new
     /\ requests_of new =
          [mkRequest "futures_create_order"
             [("symbol", VStr symbol); ("side", VStr side);
              ("type", VStr "MARKET"); ("quantity", VFloat quantity)]])
  /\ (exists r new,
     adds (place_futures_limit_order ex symbol side quantity price) s r new
     /\ requests_of new =
          [mkRequest "futures_create_order"
             [("symbol", VStr symbol); ("side", VStr side);
              ("type", VStr "LIMIT"); ("timeInForce", VStr "GTC");
              ("quantity", VFloat quantity); ("price", VFloat price)]]).
Proof.
  intros Hc Hside.
  unfold place_futures_market_order, place_futures_limit_order.
  run_monad. rewrite Hside. cbn. rewrite Hc. cbn.
  split; split_run; name_added.
Qed.

(** X6: when the exchange answers the ticker request, the price is
    [float] of the answer's field "price"; when it answers the account
    request, the balance is [float] of the answer's field
    "totalWalletBalance".  A missing field (KeyError) or a value that
    [float] refuses (ValueError, TypeError, or OverflowError on an int
    beyond the range of a double) is raised to the caller after the one
    request was sent, and logged at error level. *)
Theorem price_and_balance_read_one_field
    (symbol : string) (s : Sys F) (c : Client) (answer : PyVal F) :
  client (self s) = Some c ->
  (respond ex (requests_of (events s)) c
     (mkRequest "futures_symbol_ticker" [("symbol", VStr symbol)]) = Ok answer ->
   exists new,
     adds (get_current_price ex symbol) s
       (rbind (subscript answer "price") py_float) new
     /\ requests_of new =
          [mkRequest "futures_symbol_ticker" [("symbol", VStr symbol)]]
     /\ error_logs new
          = match rbind (subscript answer "price") py_float with
            | Raise e => ["Failed to get price: " +++ str_exn e]
            | _ => []
            end)
  /\ (respond ex (requests_of (events s)) c (mkRequest "futures_account" [])
        = Ok answer ->
      exists new,
        adds (get_account_balance ex) s
          (rbind (subscript answer "totalWalletBalance") py_float) new
        /\ requests_of new = [mkRequest "futures_account" []]
        /\ error_logs new
             = match rbind (subscript answer "totalWalletBalance") py_float with
               | Raise e => ["Failed to get balance: " +++ str_exn e]
               | _ => []
               end).
Proof.
  intros Hc.
  unfold get_current_price, get_account_balance.
  run_monad. rewrite Hc. cbn.
  split; intros Hr; rewrite Hr; cbn.
  - destruct (subscript answer "price") as [raw| |]; cbn;
      [destruct (py_float raw); cbn| |]; name_added.
  - destruct (subscript answer "totalWalletBalance") as [raw| |]; cbn;
      [destruct (py_float raw); cbn| |]; name_added.
Qed.

(** X7: when the exchange answers the open-orders request, the answer is
    returned as it is if it has a length; an answer without one makes the
    operation raise the TypeError of [len], after the request.  A symbol
    left out is sent as [symbol=None]. *)
Theorem open_orders_need_a_length
    (symbol : option string) (s : Sys F) (c : Client) (answer : PyVal F) :
  client (self s) = Some c ->
  respond ex (requests_of (events s)) c
    (mkRequest "futures_get_open_orders"
       [("symbol", match symbol with Some sy => VStr sy | None => VNone end)])
    = Ok answer ->
  exists new,
    adds (get_open_orders ex symbol) s
      (rbind (py_len answer) (fun _ => Ok answer)) new
    /\ requests_of new =
         [mkRequest "futures_get_open_orders"
            [("symbol", match symbol with Some sy => VStr sy | None => VNone end)]].
Proof.
  intros Hc Hr. unfold get_open_orders. run_monad. rewrite Hc. cbn.
  unfold opt_symbol. rewrite Hr. cbn. destruct (py_len answer); cbn; name_added.
Qed.

End FacadeMore.

(** ** Further properties of the command-line surface *)

Lemma first_markup_error_app `{RichConsole} (a b : list string) :
  first_markup_error (a ++ b)
    = match first_markup_error a with
      | Some msg => Some msg
      | None => first_markup_error b
      end.
Proof.
  induction a as [|t a IH]; [reflexivity|].
  change ((t :: a) ++ b) with (t :: (a ++ b)).
  unfold first_markup_error; fold first_markup_error.
  destruct (markup_error t); [reflexivity | exact IH].
Qed.

Lemma first_markup_error_cons `{RichConsole} (t : string) (l : list string) :
  first_markup_error (t :: l)
    = match markup_error t with
      | Some msg => Some msg
      | None => first_markup_error l
      end.
Proof. reflexivity. Qed.

Lemma plain_texts_render `{RichConsole} (l : list string) :
  Forall (fun t => has_bracket t = false) l -> first_markup_error l = None.
Proof.
  induction 1 as [|t l Ht _ IH]; [reflexivity|].
  unfold first_markup_error; fold first_markup_error.
  rewrite (plain_text_renders t Ht). exact IH.
Qed.

Section CliMore.
Context {F : Type} {PF : PyFloat F} {RC : RichConsole}.
Variable ex : Exchange F.

(** X8: the block of any command, run in the scope of a facade that was
    constructed and that the exchange lets connect: the handle is connected
    once and closed once, at most one request is made, and it is made on
    that handle. *)
Theorem scoped_command_uses_its_connection
    (t : TradeService) (cmd : Command) (evs : list (Event F)) (c : Client) :
  create ex (api_key t) (secret_key t) (if testnet t then Some true else None)
    = Ok c ->
  exists r new,
    async_with ex (Ok t) (command_block ex cmd) evs = (r, evs ++ new)
    /\ connects new = [c] /\ closes new = [c]
    /\ (call_handles new = [] \/ call_handles new = [c]).
Proof.
  intros Hcr. unfold async_with, aenter, aexit. run_monad.
  unfold client_create. run_monad.
  destruct (testnet t); cbn; rewrite Hcr; cbn;
    destruct cmd; unfold_blocks; run_monad; split_run;
    eexists; eexists; (split; [rewrite <- ?app_assoc; reflexivity|]);
    (split; [reflexivity|]); (split; [reflexivity|]);
    ((left; reflexivity) || (right; reflexivity)).
Qed.

Lemma order_rows_cons (order : PyVal F) (label key : string)
    (fields : list (string * string)) :
  order_rows order ((label, key) :: fields)
    = rbind (py_get order key (VStr "N/A")) (fun value =>
      rbind (order_rows order fields) (fun rest =>
      Ok (if not_na value
          then [label; py_str value] :: rest
          else rest))).
Proof. reflexivity. Qed.

Lemma order_rows_of_dict (d : list (string * PyVal F))
    (fields : list (string * string)) :
  order_rows (VDict d) fields = Ok (flat_map (field_row d) fields).
Proof.
  induction fields as [|[label key] fields IH]; [reflexivity|].
  rewrite order_rows_cons, IH. unfold py_get, field_row, flat_map.
  fold (flat_map (field_row d) fields). unfold fst, snd.
  destruct (assoc key d) as [v|]; unfold rbind.
  - destruct (not_na v); reflexivity.
  - reflexivity.
Qed.

(** The labels of the rows are those of the fields, which are plain. *)
Lemma field_labels_plain (d : list (string * PyVal F))
    (fields : list (string * string)) :
  Forall (fun f => has_bracket (fst f) = false) fields ->
  Forall (fun t => has_bracket t = false)
    (map (fun row => nth 0 row "") (flat_map (field_row d) fields)).
Proof.
  induction 1 as [|[label key] fields Hl _ IH]; [constructor|].
  unfold flat_map; fold (flat_map (field_row d) fields).
  unfold field_row at 1. unfold fst, snd in *.
  destruct (assoc key d) as [v|]; [|exact IH].
  destruct (not_na v); [|exact IH].
  constructor; [exact Hl | exact IH].
Qed.

(** Only the values of the order table can be refused by the console. *)
Lemma order_table_texts (d : list (string * PyVal F)) :
  first_markup_error
    (table_texts "Order Details" ["Field"; "Value"]
       (flat_map (field_row d) key_fields))
  = first_markup_error (shown_values d).
Proof.
  unfold table_texts, shown_values.
  change (seq 0 (List.length ["Field"; "Value"])) with [0%nat; 1%nat].
  unfold map at 1, concat.
  change (nth 0 ["Field"; "Value"] "") with "Field".
  change (nth 1 ["Field"; "Value"] "") with "Value".
  rewrite app_nil_r.
  rewrite !first_markup_error_app.
  rewrite (plain_texts_render ("Field" :: map (fun row => nth 0 row "") _))
    by (constructor;
        [reflexivity | apply field_labels_plain; repeat constructor]).
  rewrite (plain_texts_render ["Order Details"]) by (repeat constructor).
  rewrite first_markup_error_cons, (plain_text_renders "Value" eq_refl).
  destruct (first_markup_error _); reflexivity.
Qed.

(** X9: [_display_order] on anything that is not a dict raises the
    AttributeError of the missing [get] and prints nothing.  On a dict it builds one row for
    each key field that the dict has with a value other than "N/A", in the
    order of the key fields, the label and [str] of the value.  When the
    console renders the texts of the values, that table is printed and the
    call returns; when it refuses one, for a tag that closes nothing, the
    call raises the MarkupError of the first such value and prints
    nothing. *)
Theorem display_order_shows_present_fields (order : PyVal F) (s : Sys F) :
  match order with
  | VDict d =>
      match first_markup_error (shown_values d) with
      | None =>
          adds (_display_order order) s (Ok tt)
            [EvTable "Order Details" ["Field"; "Value"]
               (flat_map (field_row d) key_fields)]
      | Some msg =>
          adds (_display_order order) s (Raise (MarkupError msg)) []
      end
  | _ =>
      adds (_display_order order) s
        (Raise (AttributeError
                  ("'" +++ type_name order +++ "' object has no attribute 'get'")))
        []
  end.
Proof.
  destruct order as [| | | | | |d];
    try (unfold adds; rewrite app_nil_r; destruct s; reflexivity).
  rewrite <- order_table_texts.
  unfold _display_order. run_monad. rewrite order_rows_of_dict. cbn.
  destruct (first_markup_error _); cbn; [|reflexivity].
  rewrite app_nil_r. destruct s; reflexivity.
Qed.

(** X10: the orders command on an entered facade, when the exchange
    answers its request with a list of orders.  An empty list prints the
    "No open orders found" line and no table.  For a non-empty list of
    which every order gives a row, there is one row per order; when the
    console renders the table's texts, the one table is printed, with the
    number of orders in its title; when it refuses one, the command raises
    that MarkupError and prints nothing. *)
Theorem open_orders_table
    (symbol : option string) (s : Sys F) (c : Client)
    (orders : list (PyVal F)) :
  client (self s) = Some c ->
  respond ex (requests_of (events s)) c
    (mkRequest "futures_get_open_orders"
       [("symbol", opt_symbol (symbol_filter symbol))]) = Ok (VList orders) ->
  (orders = [] ->
   exists new,
     adds (list_orders_block ex symbol) s (Ok tt) new
     /\ printed new = [nl +++ "[yellow]No open orders found[/yellow]"]
     /\ tables new = [])
  /\ (forall rows, mapR open_order_row orders = Ok rows -> orders <> [] ->
      let title :=
        "Open Orders (" +++ str_of_Z (Z.of_nat (List.length orders)) +++ ")" in
      let columns :=
        ["Order ID"; "Symbol"; "Side"; "Type"; "Quantity"; "Price"] in
      List.length rows = List.length orders
      /\ match first_markup_error (table_texts title columns rows) with
         | None =>
             exists pre,
               adds (list_orders_block ex symbol) s (Ok tt)
                 (pre ++ [EvTable title columns rows])
               /\ printed pre = [] /\ tables pre = []
         | Some msg =>
             exists new,
               adds (list_orders_block ex symbol) s (Raise (MarkupError msg)) new
               /\ printed new = [] /\ tables new = []
         end).
Proof.
  intros Hc Hr. split.
  - intros ->. unfold list_orders_block, get_open_orders. run_monad.
    rewrite Hc. cbn. rewrite Hr. unfold py_len, truthy. cbn.
    rewrite no_open_orders_renders. cbn. name_added.
  - intros rows Hrows Hne title columns.
    split; [exact (mapR_length _ _ _ Hrows)|].
    destruct orders as [|o orders]; [congruence|].
    subst title columns.
    unfold list_orders_block, get_open_orders. run_monad.
    rewrite Hc. cbn. rewrite Hr. unfold py_len, truthy, py_iter. cbn.
    rewrite Hrows. cbn.
    destruct (first_markup_error _); cbn; rewrite <- ?app_assoc.
    + eexists. split; [reflexivity|]. split; reflexivity.
    + match goal with
      | |- context [events s ++ ?a ++ ?b ++ [EvTable _ _ _]] => exists (a ++ b)
      end.
      split; [rewrite <- ?app_assoc; reflexivity|].
      split; reflexivity.
Qed.

(** X11: when a row of the orders table or of the positions table cannot
    be built, the command raises the exception of the first entry that
    fails, after the facade call succeeded: KeyError for a field the entry
    lacks, the error of [float] for a profit that is no number,
    NotRenderableError for a cell that is neither a string nor [None].  No
    table and no line is printed, and nothing is logged at error level. *)
Theorem unrenderable_row_prints_nothing
    (symbol : option string) (s : Sys F) (c : Client)
    (items : list (PyVal F)) (err : exn) :
  client (self s) = Some c ->
  (respond ex (requests_of (events s)) c
     (mkRequest "futures_get_open_orders"
        [("symbol", opt_symbol (symbol_filter symbol))]) = Ok (VList items) ->
   mapR open_order_row items = Raise err ->
   exists new,
     adds (list_orders_block ex symbol) s (Raise err) new
     /\ printed new = [] /\ tables new = [] /\ error_logs new = [])
  /\ (respond ex (requests_of (events s)) c
        (mkRequest "futures_position_information"
           [("symbol", opt_symbol (symbol_filter symbol))]) = Ok (VList items) ->
      forall active,
        active_positions (VList items) = Ok active ->
        mapR position_row active = Raise err ->
        exists new,
          adds (get_position_block ex symbol) s (Raise err) new
          /\ printed new = [] /\ tables new = [] /\ error_logs new = []).
Proof.
  intros Hc. split.
  - intros Hr Hrows. destruct items as [|o items]; [discriminate Hrows|].
    unfold list_orders_block, get_open_orders. run_monad.
    rewrite Hc. cbn. rewrite Hr. unfold py_len, truthy, py_iter. cbn.
    rewrite Hrows. cbn. name_added.
  - intros Hr active Hact Hrows.
    destruct active as [|p active]; [discriminate Hrows|].
    unfold get_position_block, get_position_info. run_monad.
    rewrite Hc. cbn. rewrite Hr. cbn. rewrite Hact. cbn. rewrite Hrows. cbn.
    name_added.
Qed.

End CliMore.

(** X12: [main_callback] records the mode flag and stores each credential:
    the option's value when one is given and is not empty, the value of the
    settings otherwise.  It then either proceeds, with both credentials of
    the state non-empty, printing the mode line, or exits with code 1, a
    credential of the state being empty, printing the two error lines and
    no mode line.  It proceeds exactly when each credential is given
    non-empty as an option or is non-empty in the settings. *)
Theorem startup_requires_credentials
    (settings : Settings) (tn : bool) (key secret : option string) :
  let supplied := fun (x : option string) (d : string) =>
    (exists v, x = Some v /\ v <> "") \/ d <> "" in
  let stored := fun (x : option string) (d : string) (kept : string) =>
    (forall v, x = Some v -> v <> "" -> kept = v)
    /\ (x = None \/ x = Some "" -> kept = d) in
  let '(out, st, lines) := main_callback settings tn key secret in
  state_testnet st = tn
  /\ stored key (API_KEY settings) (state_api_key st)
  /\ stored secret (SECRET_KEY settings) (state_secret_key st)
  /\ (out = Proceed <->
      supplied key (API_KEY settings) /\ supplied secret (SECRET_KEY settings))
  /\ ((out = Proceed
       /\ state_api_key st <> "" /\ state_secret_key st <> ""
       /\ lines = ["[yellow]Mode: " +++ (if tn then "TESTNET" else "LIVE")
                   +++ "[/yellow]"])
      \/ (out = Exit 1
          /\ (state_api_key st = "" \/ state_secret_key st = "")
          /\ lines = ["[red]Error: API credentials not configured[/red]";
                      "Set BINANCE_API_KEY and BINANCE_SECRET_KEY env vars"])).
Proof.
  intros supplied stored. unfold main_callback.
  assert (Hor : forall x d, str_truthy (or_else x d) = true <-> supplied x d).
  { intros x d. unfold supplied, or_else.
    assert (Hd : str_truthy d = true <-> d <> "")
      by (destruct d; cbn [str_truthy]; split; congruence).
    destruct x as [[|a v]|]; cbn [str_truthy].
    - rewrite Hd. split; [tauto|].
      intros [(w & Hw & Hne) | H]; [inversion Hw; congruence | exact H].
    - split; [intros _ | reflexivity].
      left. eexists. split; [reflexivity | discriminate].
    - rewrite Hd. split; [tauto|].
      intros [(w & Hw & Hne) | H]; [discriminate Hw | exact H]. }
  assert (Hst : forall x d, stored x d (or_else x d)).
  { intros x d. unfold stored, or_else. split.
    - intros v -> Hv. destruct v; [congruence | reflexivity].
    - intros [-> | ->]; reflexivity. }
  assert (Hempty : forall x, str_truthy x = false -> x = "")
    by (intros [|]; [reflexivity | discriminate]).
  assert (Hfull : forall x, str_truthy x = true -> x <> "")
    by (intros [|]; [discriminate | discriminate]).
  pose proof (Hor key (API_KEY settings)) as Hk.
  pose proof (Hor secret (SECRET_KEY settings)) as Hs.
  pose proof (Hst key (API_KEY settings)) as Hkk.
  pose proof (Hst secret (SECRET_KEY settings)) as Hss.
  cbn [state_api_key state_secret_key state_testnet].
  destruct (str_truthy (or_else key (API_KEY settings))) eqn:Ek;
    destruct (str_truthy (or_else secret (SECRET_KEY settings))) eqn:Es;
    cbn; (split; [reflexivity|]); (split; [exact Hkk|]);
    (split; [exact Hss|]); split;
    try (split; [intros H; discriminate H
                | intros [H1 H2]; apply Hk in H1; apply Hs in H2; congruence]);
    try (split; [intros _; split; [apply Hk | apply Hs]; reflexivity
                | reflexivity]);
    try (left; repeat split; auto; fail);
    right; repeat split; auto.
Qed.

Lemma upper_is_idempotent (s : string) :
  upper (upper s) = upper s /\ String.length (upper s) = String.length s.
Proof.
  induction s as [|ch s [IH1 IH2]]; [split; reflexivity|]. split.
  - change (String (upper_ascii (upper_ascii ch)) (upper (upper s))
            = String (upper_ascii ch) (upper s)).
    rewrite IH1. f_equal.
    destruct ch as [[] [] [] [] [] [] [] []]; reflexivity.
  - change (S (String.length (upper s)) = S (String.length s)).
    rewrite IH2. reflexivity.
Qed.

Lemma symbol_filter_upper (symbol : option string) :
  symbol_filter (option_map upper symbol) = symbol_filter symbol.
Proof.
  destruct symbol as [sy|]; [|reflexivity].
  unfold symbol_filter, option_map.
  rewrite (proj1 (upper_is_idempotent sy)).
  destruct sy; reflexivity.
Qed.

(** X14: the letter case of the symbol and of the side does not matter to
    any command: the block run for a command line is the one run for the
    same line written in upper case. *)
Theorem letter_case_is_ignored
    {F : Type} {PF : PyFloat F} {RC : RichConsole}
    (ex : Exchange F) (cmd : Command) (s : Sys F) :
  command_block ex (upper_command cmd) s = command_block ex cmd s.
Proof.
  destruct cmd; unfold upper_command, command_block, market_order_block,
    limit_order_block, stop_limit_order_block, get_price_block,
    list_orders_block, get_position_block, cancel_order_block;
    rewrite ?symbol_filter_upper, ?(fun x => proj1 (upper_is_idempotent x));
    reflexivity.
Qed.

(** ** Where log records go *)

Lemma bound_trade (bound : list string) :
  existsb (String.eqb "trade") bound = true <-> In "trade" bound.
Proof.
  rewrite existsb_exists. split.
  - intros (x & Hx & Heq). apply String.eqb_eq in Heq. subst. exact Hx.
  - intros H. exists "trade". split; [exact H | apply String.eqb_refl].
Qed.

(** X15: with the handlers of [setup_logger], a record of any of the
    library's seven levels is written to the daily file unless it is at
    TRACE level; to the errors file exactly when it is at ERROR or CRITICAL
    level; to the trades file exactly when "trade" is bound in its extra
    and it is not at TRACE level; and to the console exactly when the setup
    was verbose and the record is at neither TRACE nor DEBUG level. *)
Theorem log_routing (verbose : bool) (lvl : Level) (bound : list string) :
  let ds := destinations (sinks (setup_logger verbose)) lvl bound in
  (In bot_file ds <-> lvl <> TRACE)
  /\ (In errors_file ds <-> lvl = ERROR \/ lvl = CRITICAL)
  /\ (In trades_file ds <-> In "trade" bound /\ lvl <> TRACE)
  /\ (In Stdout ds <-> verbose = true /\ lvl <> TRACE /\ lvl <> DEBUG).
Proof.
  intros ds. subst ds. rewrite <- bound_trade.
  destruct verbose, lvl;
    cbv beta iota zeta delta
      [destinations setup_logger sinks app filter map delivers threshold
       needs_extra target level_no Nat.leb andb stdout_sink bot_sink
       errors_sink trades_sink];
    destruct (existsb (String.eqb "trade") bound);
    unfold bot_file, errors_file, trades_file; cbn [In];
    repeat split; intros;
    repeat match goal with
           | H : _ \/ _ |- _ => destruct H
           | H : _ /\ _ |- _ => destruct H
           end;
    try discriminate; try contradiction; try congruence; auto;
    try (left; congruence); try (right; congruence);
    try (right; auto; fail); try (right; right; auto; fail);
    try (right; right; right; auto; fail).
Qed.

Section LogFiles.
Context {F : Type} {PF : PyFloat F} {RC : RichConsole}.
Variable ex : Exchange F.

(** X16: a facade that logs through the logger of [setup_logger] writes to
    the trades file one line for an order placement that returned and
    nothing for any other outcome or operation, and writes to the errors
    file exactly its error-level entries. *)
Theorem trades_file_gets_placed_orders
    (verbose : bool) (op : Op) (s : Sys F) :
  extra (logger (self s)) = extra (configured (setup_logger verbose)) ->
  exists r new,
    adds (run_op ex op) s r new
    /\ List.length (file_lines (sinks (setup_logger verbose)) trades_file new)
         = (if andb (is_ok r) (is_placement op) then 1 else 0)%nat
    /\ file_lines (sinks (setup_logger verbose)) errors_file new
         = error_logs new.
Proof.
  destruct s as [[[bound] tn key secret cl] evs]. cbn. intros ->.
  destruct verbose, op; unfold_ops; run_monad; split_run;
    eexists; eexists; (split; [rewrite <- ?app_assoc; reflexivity|]);
    split; reflexivity.
Qed.

(** X13: every command, whatever its arguments, the state and the trace so
    far, raises the TypeError of the constructor call and leaves the trace as
    it was: no connection is attempted, nothing is sent, logged or
    printed. *)
Theorem commands_fail_before_connecting
    (settings : Settings) (st : State) (cmd : Command) (evs : list (Event F)) :
  run_command ex settings st cmd evs
    = (Raise (TypeError
         "TradeService.__init__() missing 1 required positional argument: 'logger'"),
       evs).
Proof. destruct cmd; reflexivity. Qed.

End LogFiles.

(** ** Concrete runs of the further properties *)

Example startup_without_credentials :
  main_callback (mkSettings true "" "") true None (Some "secret")
  = (Exit 1,
     {| state_testnet := true; state_api_key := "";
        state_secret_key := "secret" |},
     ["[red]Error: API credentials not configured[/red]";
      "Set BINANCE_API_KEY and BINANCE_SECRET_KEY env vars"]).
Proof. reflexivity. Qed.

Example startup_live_with_settings :
  main_callback Demo.settings false (Some "") (Some "flag-secret")
  = (Proceed,
     {| state_testnet := false; state_api_key := "env-key";
        state_secret_key := "flag-secret" |},
     ["[yellow]Mode: LIVE[/yellow]"]).
Proof. reflexivity. Qed.

Example error_record_destinations :
  destinations (sinks (setup_logger true)) ERROR []
  = [Stdout; bot_file; errors_file].
Proof. reflexivity. Qed.

Example critical_record_destinations :
  destinations (sinks (setup_logger false)) CRITICAL []
  = [bot_file; errors_file].
Proof. reflexivity. Qed.

Example trace_record_destinations :
  destinations (sinks (setup_logger true)) TRACE ["trade"] = [].
Proof. reflexivity. Qed.

Example trade_record_destinations :
  destinations (sinks (setup_logger false)) INFO ["trade"]
  = [bot_file; trades_file].
Proof. reflexivity. Qed.

Example two_orders_table :
  tables (events (snd (list_orders_block Cases.two_orders None Demo.start)))
  = [[["1"; "BTCUSDT"; "BUY"; "LIMIT"; "0.001"; "50000"];
      ["2"; "BTCUSDT"; "SELL"; "MARKET"; "0.002"; "N/A"]]].
Proof. vm_compute. reflexivity. Qed.

(** The balance command's block: two decimals in the log, two decimals
    and thousands separators on the console. *)
Example balance_block_trace :
  get_balance_block Cases.quoting Demo.start
  = (Ok tt,
     mkSys Demo.opened
       [EvCall 7 (mkRequest "futures_account" []);
        EvLog INFO [] "Account balance: $1234567.89 USDT";
        EvPrint (nl +++ "[cyan]Account Balance:[/cyan] [green]$1,234,567.89 USDT[/green]")]).
Proof. vm_compute. reflexivity. Qed.

(** A price that is an int beyond the range of a double. *)
Example huge_price_overflows :
  get_current_price Cases.huge "BTCUSDT" Demo.start
  = (Raise (OverflowError "int too large to convert to float"),
     mkSys Demo.opened
       [EvCall 7 (mkRequest "futures_symbol_ticker" [("symbol", VStr "BTCUSDT")]);
        EvLog ERROR []
          "Failed to get price: int too large to convert to float"]).
Proof. vm_compute. reflexivity. Qed.

(** An order whose symbol is a stray closing tag: the table is refused. *)
Example stray_tag_is_refused :
  _display_order Cases.stray_tag Demo.start
  = (Raise (MarkupError
       "closing tag '[/b]' at position 0 doesn't match any open tag"),
     Demo.start).
Proof. vm_compute. reflexivity. Qed.

(** The balance asked of a facade that was never entered. *)
Lemma no_request_without_handle_witness :
  client (self Cases.unopened) = None
  /\ exists e new,
       adds (run_op Demo.accepting OpBalance) Cases.unopened (Raise e) new
       /\ requests_of new = [] /\ call_handles new = [].
Proof.
  split; [reflexivity|].
  exact (no_request_without_handle Demo.accepting OpBalance Cases.unopened
           eq_refl).
Defined.

(** A cancel that the exchange accepts. *)
Lemma result_is_exchange_answer_witness :
  adds (run_op Demo.accepting (OpCancel "BTCUSDT" 12345)) Demo.start
    (Ok (Demo.answer (mkRequest "futures_cancel_order" [])))
    [EvCall 7 (mkRequest "futures_cancel_order"
                 [("symbol", VStr "BTCUSDT"); ("orderId", VInt 12345)]);
     EvLog INFO [] "Order 12345 canceled successfully"]
  /\ exists c req answer,
       client (self Demo.start) = Some c
       /\ requests_of
            [EvCall 7 (mkRequest "futures_cancel_order"
                         [("symbol", VStr "BTCUSDT"); ("orderId", VInt 12345)]);
             @EvLog Demo.Dec INFO [] "Order 12345 canceled successfully"]
          = [req]
       /\ call_handles
            [EvCall 7 (mkRequest "futures_cancel_order"
                         [("symbol", VStr "BTCUSDT"); ("orderId", VInt 12345)]);
             @EvLog Demo.Dec INFO [] "Order 12345 canceled successfully"]
          = [c]
       /\ respond Demo.accepting (requests_of (events Demo.start)) c req
          = Ok answer
       /\ Demo.answer (mkRequest "futures_cancel_order" []) = answer.
Proof.
  split; [reflexivity|].
  exact (result_is_exchange_answer Demo.accepting
           (OpCancel "BTCUSDT" 12345) Demo.start _ _ eq_refl).
Defined.

(** A market order whose answer carries no order id. *)
Lemma order_sent_but_answer_unreadable_witness :
  client (self Demo.start) = Some 7%nat
  /\ side_invalid "BUY" = false
  /\ respond Cases.no_order_id (requests_of (events Demo.start)) 7%nat
       (mkRequest "futures_create_order"
          [("symbol", VStr "BTCUSDT"); ("side", VStr "BUY");
           ("type", VStr "MARKET"); ("quantity", VFloat Demo.qty)])
     = Ok (VDict [("status", VStr "NEW")])
  /\ exists new,
       adds (run_op Cases.no_order_id (OpMarket "BTCUSDT" "BUY" Demo.qty))
         Demo.start (Raise (KeyError "orderId")) new
       /\ requests_of new
            = [mkRequest "futures_create_order"
                 [("symbol", VStr "BTCUSDT"); ("side", VStr "BUY");
                  ("type", VStr "MARKET"); ("quantity", VFloat Demo.qty)]]
       /\ error_logs new = ["Market order failed: 'orderId'"].
Proof.
  split; [reflexivity|]. split; [reflexivity|]. split; [reflexivity|].
  exact (order_sent_but_answer_unreadable Cases.no_order_id
           (OpMarket "BTCUSDT" "BUY" Demo.qty) Demo.start 7%nat "BUY"
           (VDict [("status", VStr "NEW")]) (KeyError "orderId")
           eq_refl eq_refl eq_refl eq_refl eq_refl).
Defined.

(** A limit buy on the accepting exchange. *)
Lemma market_and_limit_requests_witness :
  client (self Demo.start) = Some 7%nat
  /\ side_invalid "BUY" = false
  /\ exists r new,
       adds (place_futures_limit_order Demo.accepting "BTCUSDT" "BUY"
               Demo.qty Demo.qty) Demo.start r new
       /\ requests_of new =
            [mkRequest "futures_create_order"
               [("symbol", VStr "BTCUSDT"); ("side", VStr "BUY");
                ("type", VStr "LIMIT"); ("timeInForce", VStr "GTC");
                ("quantity", VFloat Demo.qty); ("price", VFloat Demo.qty)]].
Proof.
  split; [reflexivity|]. split; [reflexivity|].
  exact (proj2 (market_and_limit_requests Demo.accepting "BTCUSDT" "BUY"
                  Demo.qty Demo.qty Demo.start 7%nat eq_refl eq_refl)).
Defined.

(** The price read from the answer to the ticker request, on an exchange
    that rejects the other calls. *)
Lemma price_and_balance_read_one_field_witness :
  client (self Demo.start) = Some 7%nat
  /\ respond Cases.quoting (requests_of (events Demo.start)) 7%nat
       (mkRequest "futures_symbol_ticker" [("symbol", VStr "BTCUSDT")])
     = Ok (VDict [("price", VStr "50000.5")])
  /\ exists x new,
       float_of_str "50000.5" = Some x
       /\ float_repr x = "50000.5"
       /\ adds (get_current_price Cases.quoting "BTCUSDT") Demo.start (Ok x) new
       /\ requests_of new =
            [mkRequest "futures_symbol_ticker" [("symbol", VStr "BTCUSDT")]]
       /\ error_logs new = [].
Proof.
  split; [reflexivity|]. split; [reflexivity|].
  destruct (proj1 (price_and_balance_read_one_field Cases.quoting "BTCUSDT"
                     Demo.start 7%nat (VDict [("price", VStr "50000.5")])
                     eq_refl) eq_refl) as (new & Hadds & Hreq & Hlog).
  eexists. exists new.
  split; [vm_compute; reflexivity|]. split; [vm_compute; reflexivity|].
  split; [exact Hadds|]. split; [exact Hreq | exact Hlog].
Defined.

(** Open orders asked of an exchange that answers [None]. *)
Lemma open_orders_need_a_length_witness :
  client (self Demo.start) = Some 7%nat
  /\ respond Cases.silent (requests_of (events Demo.start)) 7%nat
       (mkRequest "futures_get_open_orders" [("symbol", VNone)]) = Ok VNone
  /\ exists new,
       adds (get_open_orders Cases.silent None) Demo.start
         (Raise (TypeError "object of type 'NoneType' has no len()")) new
       /\ requests_of new =
            [mkRequest "futures_get_open_orders" [("symbol", VNone)]].
Proof.
  split; [reflexivity|]. split; [reflexivity|].
  exact (open_orders_need_a_length Cases.silent None Demo.start 7%nat VNone
           eq_refl eq_refl).
Defined.

(** The price command in the scope of a facade built with a logger. *)
Lemma scoped_command_uses_its_connection_witness :
  create Demo.accepting "key" "secret" (Some true) = Ok 7%nat
  /\ exists r new,
       async_with Demo.accepting (Ok Demo.fresh)
         (command_block Demo.accepting (CmdPrice "btcusdt")) [] = (r, [] ++ new)
       /\ connects new = [7%nat] /\ closes new = [7%nat]
       /\ (call_handles new = [] \/ call_handles new = [7%nat]).
Proof.
  split; [reflexivity|].
  exact (scoped_command_uses_its_connection Demo.accepting Demo.fresh
           (CmdPrice "btcusdt") [] 7%nat eq_refl).
Defined.

(** Two open orders, the second without a price. *)
Lemma open_orders_table_witness :
  client (self Demo.start) = Some 7%nat
  /\ respond Cases.two_orders (requests_of (events Demo.start)) 7%nat
       (mkRequest "futures_get_open_orders" [("symbol", VNone)])
     = Ok (VList Cases.orders)
  /\ Cases.orders <> []
  /\ mapR open_order_row Cases.orders
     = Ok [["1"; "BTCUSDT"; "BUY"; "LIMIT"; "0.001"; "50000"];
           ["2"; "BTCUSDT"; "SELL"; "MARKET"; "0.002"; "N/A"]]
  /\ exists pre,
       adds (list_orders_block Cases.two_orders None) Demo.start (Ok tt)
         (pre ++ [EvTable "Open Orders (2)"
                    ["Order ID"; "Symbol"; "Side"; "Type"; "Quantity"; "Price"]
                    [["1"; "BTCUSDT"; "BUY"; "LIMIT"; "0.001"; "50000"];
                     ["2"; "BTCUSDT"; "SELL"; "MARKET"; "0.002"; "N/A"]]])
       /\ printed pre = [] /\ tables pre = [].
Proof.
  assert (Hne : Cases.orders <> []) by discriminate.
  split; [reflexivity|]. split; [reflexivity|]. split; [exact Hne|].
  split; [reflexivity|].
  exact (proj2 (proj2 (open_orders_table Cases.two_orders None Demo.start
                         7%nat Cases.orders eq_refl eq_refl)
                  _ eq_refl Hne)).
Defined.

(** An open position without entry price: the positions command raises. *)
Lemma unrenderable_row_prints_nothing_witness :
  client (self Demo.start) = Some 7%nat
  /\ respond Cases.half_told (requests_of (events Demo.start)) 7%nat
       (mkRequest "futures_position_information" [("symbol", VNone)])
     = Ok (VList [Cases.partial])
  /\ active_positions (VList [Cases.partial]) = Ok [Cases.partial]
  /\ mapR position_row [Cases.partial] = Raise (KeyError "entryPrice")
  /\ exists new,
       adds (get_position_block Cases.half_told None) Demo.start
         (Raise (KeyError "entryPrice")) new
       /\ printed new = [] /\ tables new = [] /\ error_logs new = [].
Proof.
  split; [reflexivity|]. split; [reflexivity|].
  split; [vm_compute; reflexivity|]. split; [vm_compute; reflexivity|].
  refine (proj2 (unrenderable_row_prints_nothing Cases.half_told None
                   Demo.start 7%nat [Cases.partial] (KeyError "entryPrice")
                   eq_refl)
            eq_refl [Cases.partial] _ _); vm_compute; reflexivity.
Defined.

(** No key option and an empty secret option: both credentials come from
    the settings, each into its own field. *)
Lemma startup_requires_credentials_witness :
  fst (main_callback Demo.settings false None (Some ""))
    = (Proceed,
       {| state_testnet := false; state_api_key := "env-key";
          state_secret_key := "env-secret" |})
  /\ state_api_key (snd (fst (main_callback Demo.settings false None (Some ""))))
     = API_KEY Demo.settings
  /\ state_secret_key
       (snd (fst (main_callback Demo.settings false None (Some ""))))
     = SECRET_KEY Demo.settings.
Proof.
  split; [reflexivity|].
  pose proof (startup_requires_credentials Demo.settings false None (Some ""))
    as H.
  cbv zeta in H.
  destruct (main_callback Demo.settings false None (Some "")) as [[out st] lines].
  destruct H as (_ & Hkey & Hsecret & _).
  split.
  - exact (proj2 Hkey (or_introl eq_refl)).
  - exact (proj2 Hsecret (or_intror eq_refl)).
Defined.

(** A market order that the exchange accepts, logged through the logger of
    [setup_logger]. *)
Lemma trades_file_gets_placed_orders_witness :
  extra (logger (self Demo.start)) = extra (configured (setup_logger false))
  /\ exists r new,
       adds (run_op Demo.accepting (OpMarket "BTCUSDT" "BUY" Demo.qty))
         Demo.start r new
       /\ List.length (file_lines (sinks (setup_logger false)) trades_file new)
            = (if andb (is_ok r) true then 1 else 0)%nat
       /\ file_lines (sinks (setup_logger false)) errors_file new
            = error_logs new.
Proof.
  split; [reflexivity|].
  exact (trades_file_gets_placed_orders Demo.accepting false
           (OpMarket "BTCUSDT" "BUY" Demo.qty) Demo.start eq_refl).
Defined.
